(** * The limousine booking flow of [bookings/views.py] and [orders/views.py]

    A shallow embedding of the two Django views and of the helpers of
    [bookings/views.py].  Python [float]s are IEEE binary64 numbers and are
    modelled by Rocq's primitive binary64 floats; [request.POST] and
    [request.session] are finite maps with string keys; dict literals are
    association lists; the external collaborators (Nominatim, OSRM, Google
    Maps, the clock and the ORM) are fields of a [world] record. *)

From Stdlib Require Import ZArith Lia String Ascii List Bool.
From Stdlib Require Import PrimFloat SpecFloat FloatOps.
From stdpp Require Import base option gmap strings.
Import ListNotations.

Local Open Scope Z_scope.
Local Open Scope string_scope.

(** Decimal literals such as 10.01 denote the nearest binary64 number, as
    they do in Python. *)
#[local] Set Warnings "-inexact-float".

(** ** Python values *)

(** The dynamically typed values the views handle. *)
#[warnings="-register-all"]
Inductive pyval :=
| PNone
| PBool (b : bool)
| PInt (z : Z)
| PFloat (f : float)
| PStr (s : string)
| PTime (hour minute : Z)
| PDict (items : list (string * pyval)).

(** A dict literal is an association list; [d.get(k)] is the first binding. *)
Fixpoint dict_get {A : Type} (k : string) (d : list (string * A)) : option A :=
  match d with
  | [] => None
  | (k', v) :: d' => if String.eqb k k' then Some v else dict_get k d'
  end.

(** [d[k]] on a dict of Python values.  Every subscript in the views names a
    key of a literal built a few lines before, so the [KeyError] branch is
    never taken; it is mapped to [PNone]. *)
Definition dict_item (d : list (string * pyval)) (k : string) : pyval :=
  match dict_get k d with
  | Some v => v
  | None => PNone
  end.

(** Truth value of a Python object, as used by [if x:] and [x or y]. *)
Definition py_truthy (v : pyval) : bool :=
  match v with
  | PNone => false
  | PBool b => b
  | PInt z => negb (Z.eqb z 0)
  | PFloat f => negb (PrimFloat.eqb f 0)
  | PStr s => negb (String.eqb s "")
  | PTime _ _ => true
  | PDict items => match items with [] => false | _ => true end
  end.

Definition py_or (a b : pyval) : pyval := if py_truthy a then a else b.

(** ** Strings *)

(** A Python [str] is represented by its UTF-8 encoding, which is also how a
    string literal of this file is read: equality, concatenation and the
    substring test of two strings are those of their encodings. *)

(** The twenty-nine characters that [str.isspace] accepts and [str.strip]
    removes, by the bytes of their encoding: U+0009 to U+000D, U+001C to
    U+0020, U+0085, U+00A0, U+1680, U+2000 to U+200A, U+2028, U+2029, U+202F,
    U+205F and U+3000. *)
Definition py_whitespace : list string :=
  map (fun bytes => string_of_list_ascii (map ascii_of_nat bytes))
    [ [9]; [10]; [11]; [12]; [13]; [28]; [29]; [30]; [31]; [32];
      [194; 133]; [194; 160];
      [225; 154; 128];
      [226; 128; 128]; [226; 128; 129]; [226; 128; 130]; [226; 128; 131];
      [226; 128; 132]; [226; 128; 133]; [226; 128; 134]; [226; 128; 135];
      [226; 128; 136]; [226; 128; 137]; [226; 128; 138];
      [226; 128; 168]; [226; 128; 169]; [226; 128; 175];
      [226; 129; 159];
      [227; 128; 128] ]%nat.

(** [s] without the prefix [p], when [s] begins with [p]. *)
Fixpoint drop_prefix (p s : string) : option string :=
  match p, s with
  | EmptyString, _ => Some s
  | String a p', String b s' => if Ascii.eqb a b then drop_prefix p' s' else None
  | String _ _, EmptyString => None
  end.

(** [s] without the first of [ws] it begins with. *)
Fixpoint drop_first (ws : list string) (s : string) : option string :=
  match ws with
  | [] => None
  | w :: ws' =>
      match drop_prefix w s with
      | Some rest => Some rest
      | None => drop_first ws' s
      end
  end.

(** [s] without its first character, when that is whitespace. *)
Definition skip_space (s : string) : option string := drop_first py_whitespace s.

(** At most [fuel] leading whitespace characters removed. *)
Fixpoint lstrip_from (fuel : nat) (s : string) : string :=
  match fuel with
  | O => s
  | S fuel' =>
      match skip_space s with
      | Some rest => lstrip_from fuel' rest
      | None => s
      end
  end.

(** [s.lstrip()]: a string has no more characters than bytes. *)
Definition lstrip (s : string) : string := lstrip_from (String.length s) s.

(** [s] is empty or whitespace throughout. *)
Definition all_space (s : string) : bool := String.eqb (lstrip s) "".

(** [s.rstrip()]: [s] up to the first position from which only whitespace
    follows. *)
Fixpoint rstrip (s : string) : string :=
  match s with
  | EmptyString => EmptyString
  | String c s' => if all_space s then EmptyString else String c (rstrip s')
  end.

(** [s.strip()] *)
Definition strip (s : string) : string := rstrip (lstrip s).

Fixpoint starts_with (p s : string) : bool :=
  match p, s with
  | EmptyString, _ => true
  | String a p', String b s' => Ascii.eqb a b && starts_with p' s'
  | String _ _, EmptyString => false
  end.

(** [needle in hay] on strings. *)
Fixpoint py_contains (needle hay : string) : bool :=
  starts_with needle hay ||
  match hay with
  | EmptyString => false
  | String _ hay' => py_contains needle hay'
  end.

(** ** Floats *)

(** Nearest integer to [num / den] for [den > 0], ties to the even one. *)
Definition round_half_even (num den : Z) : Z :=
  let q := num / den in
  let r := num mod den in
  match 2 * r ?= den with
  | Lt => q
  | Gt => q + 1
  | Eq => if Z.even q then q else q + 1
  end.

(** [round(x, ndigits)] on a float, for [ndigits >= 0].  CPython rounds the
    exact binary value of [x] to [ndigits] decimals (ties to even) and converts
    that decimal back to the nearest float; infinities, NaN and zeros are
    returned as they are. *)
Definition py_round (x : float) (ndigits : nat) : float :=
  match Prim2SF x with
  | S754_finite s m e =>
      let p := 10 ^ Z.of_nat ndigits in
      let n := round_half_even (Zpos m * p * 2 ^ Z.max e 0) (2 ^ Z.max (- e) 0) in
      match n with
      | Zpos k =>
          SF2Prim (SFdiv prec emax (S754_finite s k 0)
                         (S754_finite false (Z.to_pos p) 0))
      | _ => if s then neg_zero else zero
      end
  | _ => x
  end.

(** An [int] as an exact (unnormalised) binary number. *)
Definition int_spec (z : Z) : spec_float :=
  match z with
  | Z0 => S754_zero false
  | Zpos p => S754_finite false p 0
  | Zneg p => S754_finite true p 0
  end.

(** [a / b] on two [int]s, for [b] other than 0: the correctly rounded
    quotient when it is a float (the [None] case is Python's [OverflowError]
    for a quotient beyond the largest float). *)
Definition int_truediv (a b : Z) : option float :=
  match SFdiv prec emax (int_spec a) (int_spec b) with
  | S754_infinity _ => None
  | q => Some (SF2Prim q)
  end.

(** ** Exceptions *)

(** An exception, by the two classes the handlers test and its [str(e)].  A
    class may inherit from both ([requests.JSONDecodeError] does). *)
Record exn := Exn {
  is_ValueError : bool;
  is_RequestException : bool;
  message : string }.

Definition ValueError (msg : string) : exn := Exn true false msg.
Definition IndexError (msg : string) : exn := Exn false false msg.
Definition OverflowError (msg : string) : exn := Exn false false msg.

(** A computation that returns or raises. *)
Inductive res (A : Type) :=
| Ret (a : A)
| Exc (e : exn).
Arguments Ret {A} a.
Arguments Exc {A} e.

Definition bind {A B : Type} (m : res A) (k : A -> res B) : res B :=
  match m with
  | Ret a => k a
  | Exc e => Exc e
  end.

Notation "x <- m ;; k" := (bind m (fun x => k))
  (at level 100, m at next level, right associativity).

(** ** Requests, the session, the database and responses *)

(** [request.method] and [request.POST]; a key submitted several times is
    represented by the value [QueryDict.get] returns for it. *)
Record request := Request {
  method : string;
  POST : gmap string string }.

(** [request.POST.get(k, default)] with a string default. *)
Definition post_get (post : gmap string string) (k default : string) : string :=
  match post !! k with
  | Some v => v
  | None => default
  end.

(** [request.POST.get(k, default)] with a default that is not a string. *)
Definition post_get_val (post : gmap string string) (k : string) (default : pyval) : pyval :=
  match post !! k with
  | Some v => PStr v
  | None => default
  end.

(** [k in request.POST] *)
Definition post_in (post : gmap string string) (k : string) : bool :=
  match post !! k with
  | Some _ => true
  | None => false
  end.

(** The keyword arguments of [Bookings.objects.create] and
    [Order.objects.create], which are also the fields of the stored row
    ([orders/models.py]; the model [Bookings] is created with the same
    arguments).  A field holds the Python value the view passes. *)
Record row := Row {
  passenger_name : pyval;
  passenger_number : pyval;
  passenger_email : pyval;
  number_of_passengers : pyval;
  number_of_bags : pyval;
  pickup_address : string;
  destination_address : string;
  additional_stop : option string;
  flight_number : pyval;
  pickup_date : pyval;
  pickup_time : pyval;
  limo_service_type : string;
  baby_seat : bool;
  return_ride : bool;
  special_instruction : pyval;
  vehicle_colour : pyval;
  wedding_ribbon : pyval;
  special_signboard : pyval;
  name_on_card : pyval;
  card_type : pyval;
  card_number : pyval;
  total_price : pyval }.

(** What a request can change: the caller's session and the table of rows. *)
Record server := Server {
  session : gmap string pyval;
  db : list row }.

(** [request.session.pop(k, default)]: the value and the session without [k]. *)
Definition session_pop (k : string) (default : pyval) (s : gmap string pyval)
  : pyval * gmap string pyval :=
  match s !! k with
  | Some v => (v, delete k s)
  | None => (default, s)
  end.

(** A value of a template context: a Python value or a model instance. *)
Inductive ctxval :=
| CVal (v : pyval)
| CModel (r : row).
Coercion CVal : pyval >-> ctxval.

(** [render(request, template, context)] *)
Record response := Render {
  template : string;
  context : list (string * ctxval) }.

(** ** The collaborators *)

(** A leg of a Google route: [leg['distance']['value']] in metres and, for
    each of [leg['steps']], its [html_instructions] when the key is present. *)
Record gleg := GLeg {
  distance_value : Z;
  steps : list (option string) }.

(** The JSON body of an OSRM answer: [code] when present and the [distance]
    in metres of each entry of [routes], which OSRM gives as a JSON number
    with a fraction, read as a float (were it a JSON integer, it would divide
    by 1000 to the same float up to 2^53 metres). *)
Record osrm_body := OsrmBody {
  code : option string;
  routes : list float }.

Record world := World {
  (** [requests.get(NOMINATIM_URL, ...)], [raise_for_status()] and [json()]
      for the query [q]: the [(lon, lat)] of each hit as [float(...)] reads
      them, or the exception one of the three calls raises *)
  nominatim : string -> res (list (float * float));
  (** the same three calls on the OSRM route URL of a list of coordinates *)
  osrm : list (float * float) -> res osrm_body;
  (** the exception [googlemaps.Client(key=...)] raises, if any *)
  gmaps_client : option exn;
  (** [gmaps.directions(origin, destination, waypoints, mode="driving",
      optimize_waypoints=True)]: the legs of each route, or an exception *)
  gmaps_directions : string -> string -> option (list string) -> res (list (list gleg));
  (** [str(datetime.date.today())] *)
  today : string;
  (** [Model.objects.create] on the current table: the exception it raises,
      or [None] when the row is inserted *)
  create_error : list row -> row -> option exn }.

(** [Model.objects.create], the persistence collaborator: it stores the
    whole row and returns it, or raises and stores nothing. *)
Definition objects_create (w : world) (table : list row) (r : row) : res (list row * row) :=
  match create_error w table r with
  | Some e => Exc e
  | None => Ret (table ++ [r], r)%list
  end.

(** [None] or a string, as a Python value. *)
Definition opt_val (o : option string) : pyval :=
  match o with
  | Some s => PStr s
  | None => PNone
  end.

(** [a == b] where each side is [None] or a string. *)
Definition py_eq (a b : pyval) : bool :=
  match a, b with
  | PNone, PNone => true
  | PStr s, PStr t => String.eqb s t
  | _, _ => false
  end.

Declare Scope py_scope.
Delimit Scope py_scope with py.
Notation "a =? b" := (py_eq a b) (at level 70) : py_scope.

(** [s or None] on a string. *)
Definition str_or_none (s : string) : option string :=
  if py_truthy (PStr s) then Some s else None.

(** An entry of the [rates] dict. *)
Record rate := Rate {
  base : float;
  per_km : float;
  stop : float }.

(** ** [bookings/views.py] *)

Module Bookings.

(** [geocode(address)] *)
Definition geocode (w : world) (address : string) : res (float * float) :=
  data <- nominatim w address ;;
  match data with
  | [] => Exc (ValueError ("Address not found: " +:+ address))
  | hit :: _ => Ret hit
  end.

(** [get_route(origin, destination, waypoint)] *)
Definition get_route (w : world) (origin destination : string) (waypoint : option string)
  : res float :=
  origin_coords <- geocode w origin ;;
  dest_coords <- geocode w destination ;;
  coords_parts <-
    (if py_truthy (opt_val waypoint) then
       wp <- geocode w (default "" waypoint) ;;
       Ret [origin_coords; wp]
     else Ret [origin_coords]) ;;
  let coords_parts := (coords_parts ++ [dest_coords])%list in
  data <- osrm w coords_parts ;;
  if negb (opt_val (code data) =? PStr "Ok")%py then
    Exc (ValueError "OSRM could not calculate a route for the given addresses.")
  else
    match routes data with
    | distance_m :: _ => Ret (py_round (distance_m / 1000)%float 2)
    | [] => Exc (IndexError "list index out of range")
    end.

(** *** The fields every POST extracts *)

Definition pickup (post : gmap string string) : string :=
  strip (post_get post "pickup_address" "").

Definition destination (post : gmap string string) : string :=
  strip (post_get post "destination_address" "").

Definition extra_stop (post : gmap string string) : option string :=
  str_or_none (strip (post_get post "additional_stop" "")).

Definition service_type (post : gmap string string) : string :=
  post_get post "limo_service_type" "Sedan 1-5".

Definition has_baby_seat (post : gmap string string) : bool := post_in post "baby_seat".

Definition is_return_ride (post : gmap string string) : bool := post_in post "return_ride".

Definition form_data (w : world) (post : gmap string string) : list (string * pyval) :=
  [ ("passenger_name",       PStr (post_get post "passenger_name" ""));
    ("passenger_number",     PStr (post_get post "passenger_number" ""));
    ("passenger_email",      PStr (post_get post "passenger_email" ""));
    ("number_of_passengers", post_get_val post "number_of_passengers" (PInt 2));
    ("number_of_bags",       post_get_val post "number_of_bags" (PInt 2));
    ("pickup_address",       PStr (pickup post));
    ("destination_address",  PStr (destination post));
    ("additional_stop",      py_or (opt_val (extra_stop post)) (PStr ""));
    ("flight_number",        PStr (post_get post "flight_number" ""));
    ("pickup_date",          PStr (post_get post "pickup_date" (today w)));
    ("pickup_time",          PStr (post_get post "pickup_time" ""));
    ("limo_service_type",    PStr (service_type post));
    ("baby_seat",            PBool (has_baby_seat post));
    ("return_ride",          PBool (is_return_ride post));
    ("special_instruction",  PStr (post_get post "special_instruction" ""));
    ("vehicle_colour",       PStr (post_get post "vehicle_colour" ""));
    ("wedding_ribbon",       PStr (post_get post "wedding_ribbon" ""));
    ("special_signboard",    PStr (post_get post "special_signboard" ""));
    ("name_on_card",         PStr (post_get post "name_on_card" ""));
    ("card_type",            PStr (post_get post "card_type" ""));
    ("card_number",          PStr (post_get post "card_number" "")) ].

(** *** Step 1: the price *)

Definition rates : list (string * rate) :=
  [ ("Sedan 1-5",    Rate 30.00 3.50 15.00);
    ("SUV 1-7",      Rate 55.00 5.50 25.00);
    ("Stretch 1-13", Rate 135.00 9.50 65.00) ].

(** [rates.get(service_type, rates["Sedan 1-5"])] *)
Definition conf (service_type : string) : rate :=
  let sedan := default (Rate 0 0 0) (dict_get "Sedan 1-5" rates) in
  default sedan (dict_get service_type rates).

(** The running [subtotal] after its four statements. *)
Definition subtotal (conf : rate) (distance_km : float) (extra_stop : option string)
  (has_tolls has_baby_seat : bool) : float :=
  let subtotal := (base conf + distance_km * per_km conf)%float in
  let subtotal := if py_truthy (opt_val extra_stop) then (subtotal + stop conf)%float else subtotal in
  let subtotal := if has_tolls then (subtotal + 18.50)%float else subtotal in
  let subtotal := if has_baby_seat then (subtotal + 20.00)%float else subtotal in
  subtotal.

Definition final_price (subtotal : float) (is_return_ride : bool) : float :=
  let final_price := if is_return_ride then (subtotal * 2)%float else subtotal in
  py_round final_price 2.

Definition breakdown (conf : rate) (distance_km : float) (extra_stop : option string)
  (has_tolls has_baby_seat is_return_ride : bool) (subtotal : float)
  : list (string * pyval) :=
  [ ("base",                   PFloat (base conf));
    ("distance_km",            PFloat distance_km);
    ("distance_cost",          PFloat (py_round (distance_km * per_km conf)%float 2));
    ("stop_cost",              if py_truthy (opt_val extra_stop) then PFloat (stop conf) else PInt 0);
    ("toll_cost",              if has_tolls then PFloat 18.50 else PInt 0);
    ("baby_cost",              if has_baby_seat then PFloat 20.00 else PInt 0);
    ("return_multiplier",      PBool is_return_ride);
    ("subtotal_before_return", PFloat (py_round subtotal 2)) ].

(** *** Step 2: the arguments of [Bookings.objects.create] *)

Definition new_order (w : world) (post : gmap string string) (final_price : pyval) : row :=
  let form_data := form_data w post in
  {| passenger_name := dict_item form_data "passenger_name";
     passenger_number := dict_item form_data "passenger_number";
     passenger_email := dict_item form_data "passenger_email";
     number_of_passengers := dict_item form_data "number_of_passengers";
     number_of_bags := dict_item form_data "number_of_bags";
     pickup_address := pickup post;
     destination_address := destination post;
     additional_stop := extra_stop post;
     flight_number := dict_item form_data "flight_number";
     pickup_date := dict_item form_data "pickup_date";
     pickup_time := py_or (dict_item form_data "pickup_time") (PTime 0 0);
     limo_service_type := service_type post;
     baby_seat := has_baby_seat post;
     return_ride := is_return_ride post;
     special_instruction := dict_item form_data "special_instruction";
     vehicle_colour := dict_item form_data "vehicle_colour";
     wedding_ribbon := dict_item form_data "wedding_ribbon";
     special_signboard := dict_item form_data "special_signboard";
     name_on_card := dict_item form_data "name_on_card";
     card_type := dict_item form_data "card_type";
     card_number := dict_item form_data "card_number";
     total_price := final_price |}.

(** *** The view *)

(** [bookings(request)]: the server after the request, and the response or
    the exception that leaves the view. *)
Definition bookings (w : world) (req : request) (st : server) : server * res response :=
  if String.eqb (method req) "POST" then
    let post := POST req in
    let action := post_get post "action" "calculate" in
    let form_data := form_data w post in
    if String.eqb action "calculate" then
      match get_route w (pickup post) (destination post) (extra_stop post) with
      | Ret distance_km =>
          let has_tolls := post_in post "has_tolls" in
          let conf := conf (service_type post) in
          let subtotal :=
            subtotal conf distance_km (extra_stop post) has_tolls (has_baby_seat post) in
          let final_price := final_price subtotal (is_return_ride post) in
          let breakdown :=
            breakdown conf distance_km (extra_stop post) has_tolls (has_baby_seat post)
                      (is_return_ride post) subtotal in
          let session1 := <["pending_price" := PFloat final_price]> (session st) in
          let session2 := <["pending_breakdown" := PDict breakdown]> session1 in
          let session3 := <["pending_has_tolls" := PBool has_tolls]> session2 in
          (Server session3 (db st),
           Ret (Render "orders/booking_summary_preview.html"
                  [ ("step",        CVal (PStr "confirm"));
                    ("form_data",   CVal (PDict form_data));
                    ("final_price", CVal (PFloat final_price));
                    ("breakdown",   CVal (PDict breakdown));
                    ("has_tolls",   CVal (PBool has_tolls));
                    ("distance_km", CVal (PFloat distance_km)) ]))
      | Exc e =>
          if is_ValueError e then
            (st, Ret (Render "bookings/booking_form.html"
                        [ ("error",     CVal (PStr (message e)));
                          ("form_data", CVal (PDict form_data)) ]))
          else if is_RequestException e then
            (st, Ret (Render "bookings/booking_form.html"
                        [ ("error",     CVal (PStr "Could not connect to the routing service. Please check your addresses and try again."));
                          ("form_data", CVal (PDict form_data)) ]))
          else (st, Exc e)
      end
    else if String.eqb action "confirm" then
      let '(final_price, session1) := session_pop "pending_price" PNone (session st) in
      match final_price with
      | PNone =>
          (Server session1 (db st),
           Ret (Render "bookings/booking_form.html"
                  [ ("error",     CVal (PStr "Your session expired. Please fill in the form again."));
                    ("form_data", CVal (PDict form_data)) ]))
      | _ =>
          match objects_create w (db st) (new_order w post final_price) with
          | Ret (table, new_order) =>
              let '(breakdown, session2) := session_pop "pending_breakdown" (PDict []) session1 in
              let '(has_tolls, session3) := session_pop "pending_has_tolls" (PBool false) session2 in
              (Server session3 table,
               Ret (Render "orders/booking_confirmed.html"
                      [ ("order",     CModel new_order);
                        ("breakdown", CVal breakdown);
                        ("has_tolls", CVal has_tolls);
                        ("is_return", CVal (PBool (is_return_ride post))) ]))
          | Exc e =>
              (Server session1 (db st),
               Ret (Render "bookings/booking_form.html"
                      [ ("error",     CVal (PStr ("Could not save your booking: " +:+ message e)));
                        ("form_data", CVal (PDict form_data)) ]))
          end
      end
    else (st, Ret (Render "bookings/booking_form.html" []))
  else (st, Ret (Render "bookings/booking_form.html" [])).

End Bookings.

(** ** [orders/views.py] *)

Module Orders.

(** *** The fields every POST extracts *)

Definition pickup (post : gmap string string) : string :=
  strip (post_get post "pickup_address" "").

Definition destination (post : gmap string string) : string :=
  strip (post_get post "destination_address" "").

Definition extra_stop (post : gmap string string) : option string :=
  str_or_none (strip (post_get post "additional_stop" "")).

Definition service_type (post : gmap string string) : string :=
  post_get post "limo_service_type" "Sedan 1-5".

Definition has_baby_seat (post : gmap string string) : bool := post_in post "baby_seat".

Definition is_return_ride (post : gmap string string) : bool := post_in post "return_ride".

Definition form_data (w : world) (post : gmap string string) : list (string * pyval) :=
  [ ("passenger_name",       PStr (post_get post "passenger_name" ""));
    ("passenger_number",     PStr (post_get post "passenger_number" ""));
    ("passenger_email",      PStr (post_get post "passenger_email" ""));
    ("number_of_passengers", post_get_val post "number_of_passengers" (PInt 2));
    ("number_of_bags",       post_get_val post "number_of_bags" (PInt 2));
    ("pickup_address",       PStr (pickup post));
    ("destination_address",  PStr (destination post));
    ("additional_stop",      py_or (opt_val (extra_stop post)) (PStr ""));
    ("flight_number",        PStr (post_get post "flight_number" ""));
    ("pickup_date",          PStr (post_get post "pickup_date" (today w)));
    ("pickup_time",          PStr (post_get post "pickup_time" ""));
    ("limo_service_type",    PStr (service_type post));
    ("baby_seat",            PBool (has_baby_seat post));
    ("return_ride",          PBool (is_return_ride post));
    ("special_instruction",  PStr (post_get post "special_instruction" ""));
    ("vehicle_colour",       PStr (post_get post "vehicle_colour" ""));
    ("wedding_ribbon",       PStr (post_get post "wedding_ribbon" ""));
    ("special_signboard",    PStr (post_get post "special_signboard" ""));
    ("name_on_card",         PStr (post_get post "name_on_card" ""));
    ("card_type",            PStr (post_get post "card_type" ""));
    ("card_number",          PStr (post_get post "card_number" "")) ].

(** *** Step 1: the route and the price *)

(** [[extra_stop] if extra_stop else None] *)
Definition waypoints (extra_stop : option string) : option (list string) :=
  if py_truthy (opt_val extra_stop) then Some [default "" extra_stop] else None.

(** [sum(leg['distance']['value'] for leg in legs)] *)
Definition total_meters (legs : list gleg) : Z :=
  fold_left (fun acc leg => acc + distance_value leg) legs 0.

(** [round(total_meters / 1000, 2)] *)
Definition distance_km (legs : list gleg) : res float :=
  match int_truediv (total_meters legs) 1000 with
  | Some km => Ret (py_round km 2)
  | None => Exc (OverflowError "integer division result too large for a float")
  end.

(** [any("Toll road" in step.get('html_instructions', '') for leg in legs
    for step in leg['steps'])] *)
Definition has_tolls (legs : list gleg) : bool :=
  existsb (fun leg =>
    existsb (fun step => py_contains "Toll road" (default "" step)) (steps leg)) legs.

(** The three calls on [directions]: [gmaps.directions(...)] and the two
    readings of [directions[0]['legs']]. *)
Definition resolve (w : world) (pickup destination : string) (extra_stop : option string)
  : res (float * bool) :=
  directions <- gmaps_directions w pickup destination (waypoints extra_stop) ;;
  match directions with
  | legs :: _ =>
      distance_km <- distance_km legs ;;
      Ret (distance_km, has_tolls legs)
  | [] => Exc (IndexError "list index out of range")
  end.

Definition rates : list (string * rate) :=
  [ ("Sedan 1-5",    Rate 30.00 3.50 15.00);
    ("SUV 1-7",      Rate 55.00 5.50 25.00);
    ("Stretch 1-13", Rate 135.00 9.50 65.00) ].

(** [rates.get(service_type, rates['Sedan 1-5'])] *)
Definition conf (service_type : string) : rate :=
  let sedan := default (Rate 0 0 0) (dict_get "Sedan 1-5" rates) in
  default sedan (dict_get service_type rates).

(** The running [subtotal] after its four statements. *)
Definition subtotal (conf : rate) (distance_km : float) (extra_stop : option string)
  (has_tolls has_baby_seat : bool) : float :=
  let subtotal := (base conf + distance_km * per_km conf)%float in
  let subtotal := if py_truthy (opt_val extra_stop) then (subtotal + stop conf)%float else subtotal in
  let subtotal := if has_tolls then (subtotal + 18.50)%float else subtotal in
  let subtotal := if has_baby_seat then (subtotal + 20.00)%float else subtotal in
  subtotal.

Definition final_price (subtotal : float) (is_return_ride : bool) : float :=
  let final_price := if is_return_ride then (subtotal * 2)%float else subtotal in
  py_round final_price 2.

Definition breakdown (conf : rate) (distance_km : float) (extra_stop : option string)
  (has_tolls has_baby_seat is_return_ride : bool) (subtotal : float)
  : list (string * pyval) :=
  [ ("base",                   PFloat (base conf));
    ("distance_km",            PFloat distance_km);
    ("distance_cost",          PFloat (py_round (distance_km * per_km conf)%float 2));
    ("stop_cost",              if py_truthy (opt_val extra_stop) then PFloat (stop conf) else PInt 0);
    ("toll_cost",              if has_tolls then PFloat 18.50 else PInt 0);
    ("baby_cost",              if has_baby_seat then PFloat 20.00 else PInt 0);
    ("return_multiplier",      PBool is_return_ride);
    ("subtotal_before_return", PFloat (py_round subtotal 2)) ].

(** *** Step 2: the arguments of [Order.objects.create] *)

Definition new_order (w : world) (post : gmap string string) (final_price : pyval) : row :=
  let form_data := form_data w post in
  {| passenger_name := dict_item form_data "passenger_name";
     passenger_number := dict_item form_data "passenger_number";
     passenger_email := dict_item form_data "passenger_email";
     number_of_passengers := dict_item form_data "number_of_passengers";
     number_of_bags := dict_item form_data "number_of_bags";
     pickup_address := pickup post;
     destination_address := destination post;
     additional_stop := extra_stop post;
     flight_number := dict_item form_data "flight_number";
     pickup_date := dict_item form_data "pickup_date";
     pickup_time := py_or (dict_item form_data "pickup_time") (PTime 0 0);
     limo_service_type := service_type post;
     baby_seat := has_baby_seat post;
     return_ride := is_return_ride post;
     special_instruction := dict_item form_data "special_instruction";
     vehicle_colour := dict_item form_data "vehicle_colour";
     wedding_ribbon := dict_item form_data "wedding_ribbon";
     special_signboard := dict_item form_data "special_signboard";
     name_on_card := dict_item form_data "name_on_card";
     card_type := dict_item form_data "card_type";
     card_number := dict_item form_data "card_number";
     total_price := final_price |}.

(** *** The view *)

(** [orders(request)]: the server after the request, and the response or the
    exception that leaves the view. *)
Definition orders (w : world) (req : request) (st : server) : server * res response :=
  if String.eqb (method req) "POST" then
    let post := POST req in
    let action := post_get post "action" "calculate" in
    let form_data := form_data w post in
    if String.eqb action "calculate" then
      match gmaps_client w with
      | Some e => (st, Exc e)
      | None =>
          match resolve w (pickup post) (destination post) (extra_stop post) with
          | Ret (distance_km, has_tolls) =>
              let conf := conf (service_type post) in
              let subtotal :=
                subtotal conf distance_km (extra_stop post) has_tolls (has_baby_seat post) in
              let final_price := final_price subtotal (is_return_ride post) in
              let breakdown :=
                breakdown conf distance_km (extra_stop post) has_tolls (has_baby_seat post)
                          (is_return_ride post) subtotal in
              let session1 := <["pending_price" := PFloat final_price]> (session st) in
              let session2 := <["pending_breakdown" := PDict breakdown]> session1 in
              let session3 := <["pending_has_tolls" := PBool has_tolls]> session2 in
              (Server session3 (db st),
               Ret (Render "orders/booking_summary_preview.html"
                      [ ("step",        CVal (PStr "confirm"));
                        ("form_data",   CVal (PDict form_data));
                        ("final_price", CVal (PFloat final_price));
                        ("breakdown",   CVal (PDict breakdown));
                        ("has_tolls",   CVal (PBool has_tolls));
                        ("distance_km", CVal (PFloat distance_km)) ]))
          | Exc e =>
              (st, Ret (Render "orders/booking_form.html"
                          [ ("error",     CVal (PStr ("Route calculation failed: " +:+ message e)));
                            ("form_data", CVal (PDict form_data)) ]))
          end
      end
    else if String.eqb action "confirm" then
      let '(final_price, session1) := session_pop "pending_price" PNone (session st) in
      match final_price with
      | PNone =>
          (Server session1 (db st),
           Ret (Render "orders/booking_form.html"
                  [ ("error",     CVal (PStr "Your session expired. Please recalculate the price."));
                    ("form_data", CVal (PDict form_data)) ]))
      | _ =>
          match objects_create w (db st) (new_order w post final_price) with
          | Ret (table, new_order) =>
              let '(breakdown, session2) := session_pop "pending_breakdown" (PDict []) session1 in
              let '(has_tolls, session3) := session_pop "pending_has_tolls" (PBool false) session2 in
              (Server session3 table,
               Ret (Render "orders/booking_confirmed.html"
                      [ ("order",     CModel new_order);
                        ("breakdown", CVal breakdown);
                        ("has_tolls", CVal has_tolls);
                        ("is_return", CVal (PBool (is_return_ride post))) ]))
          | Exc e =>
              (Server session1 (db st),
               Ret (Render "orders/booking_form.html"
                      [ ("error",     CVal (PStr ("Could not save your booking: " +:+ message e)));
                        ("form_data", CVal (PDict form_data)) ]))
          end
      end
    else (st, Ret (Render "orders/booking_form.html" []))
  else (st, Ret (Render "orders/booking_form.html" [])).

End Orders.

(** ** Observations *)

(** The row a request has added to the table, if it has added exactly one. *)
Definition persisted (before after : server) (r : row) : Prop :=
  db after = (db before ++ [r])%list.

(** The entry [k] of the context of a rendered response. *)
Definition shown (k : string) (out : res response) : option ctxval :=
  match out with
  | Ret r => dict_get k (context r)
  | Exc _ => None
  end.

(** The template of a rendered response. *)
Definition rendered (out : res response) : option string :=
  match out with
  | Ret r => Some (template r)
  | Exc _ => None
  end.

(** The entry [k] of the dict stored under the session key [name]. *)
Definition session_dict_entry (st : server) (name k : string) : option pyval :=
  match session st !! name with
  | Some (PDict d) => dict_get k d
  | _ => None
  end.

(** ** The pricing rule in the words of the specification *)

Module Spec.

(** The three tiers and their base fare, per-kilometre rate and stop fee. *)
Definition tier_rate (tier : string) : option rate :=
  if String.eqb tier "Sedan 1-5" then Some (Rate 30 3.5 15)
  else if String.eqb tier "SUV 1-7" then Some (Rate 55 5.5 25)
  else if String.eqb tier "Stretch 1-13" then Some (Rate 135 9.5 65)
  else None.

(** An extra stop is given. *)
Definition given (extra_stop : option string) : bool :=
  match extra_stop with
  | Some _ => true
  | None => false
  end.

Definition plus_if (b : bool) (fee x : float) : float :=
  if b then (x + fee)%float else x.

(** base + distance * per_km, plus the fees that apply. *)
Definition subtotal (r : rate) (distance_km : float) (with_stop tolls baby : bool) : float :=
  plus_if baby 20 (plus_if tolls 18.5 (plus_if with_stop (stop r)
    (base r + distance_km * per_km r)%float)).

(** The subtotal, doubled for a return ride, rounded to 2 decimals. *)
Definition final_price (r : rate) (distance_km : float)
  (with_stop tolls baby return_ride : bool) : float :=
  let s := subtotal r distance_km with_stop tolls baby in
  py_round (if return_ride then (s * 2)%float else s) 2.

(** A message that asks the user to correct the addresses (section 7). *)
Definition address_correction (msg : string) : bool :=
  py_contains "check your addresses" msg.




End Spec.

(** ** The pages and the pending state, by name *)

(** The three session keys as [calculate] writes them. *)
Definition pending (final_price : float) (breakdown : list (string * pyval)) (has_tolls : bool)
  (s : gmap string pyval) : gmap string pyval :=
  <["pending_has_tolls" := PBool has_tolls]>
    (<["pending_breakdown" := PDict breakdown]>
       (<["pending_price" := PFloat final_price]> s)).

(** The session without the three pending keys. *)
Definition consumed (s : gmap string pyval) : gmap string pyval :=
  delete "pending_has_tolls" (delete "pending_breakdown" (delete "pending_price" s)).

Definition preview_page (form_data : list (string * pyval)) (final_price : float)
  (breakdown : list (string * pyval)) (has_tolls : bool) (distance_km : float) : response :=
  Render "orders/booking_summary_preview.html"
    [ ("step",        CVal (PStr "confirm"));
      ("form_data",   CVal (PDict form_data));
      ("final_price", CVal (PFloat final_price));
      ("breakdown",   CVal (PDict breakdown));
      ("has_tolls",   CVal (PBool has_tolls));
      ("distance_km", CVal (PFloat distance_km)) ].

Definition form_page (template error : string) (form_data : list (string * pyval)) : response :=
  Render template [ ("error", CVal (PStr error)); ("form_data", CVal (PDict form_data)) ].

Definition confirmed_page (order : row) (breakdown has_tolls : pyval) (is_return : bool)
  : response :=
  Render "orders/booking_confirmed.html"
    [ ("order",     CModel order);
      ("breakdown", CVal breakdown);
      ("has_tolls", CVal has_tolls);
      ("is_return", CVal (PBool is_return)) ].

(** The outcome of the [confirm] step once a price [v] has been popped. *)
Definition confirm_outcome (w : world) (st : server) (form_template : string)
  (form_data : list (string * pyval)) (order : row) (is_return : bool)
  : server * res response :=
  match create_error w (db st) order with
  | Some e =>
      (Server (delete "pending_price" (session st)) (db st),
       Ret (form_page form_template ("Could not save your booking: " +:+ message e) form_data))
  | None =>
      (Server (consumed (session st)) (db st ++ [order])%list,
       Ret (confirmed_page order
              (default (PDict []) (session st !! "pending_breakdown"))
              (default (PBool false) (session st !! "pending_has_tolls"))
              is_return))
  end.

(** A POST request whose [action] is [a]. *)
Definition posts (req : request) (a : string) : Prop :=
  method req = "POST" /\ post_get (POST req) "action" "calculate" = a.

(** ** Sample worlds and requests *)

Module Sample.

Definition melbourne : float * float := (145.0, -37.75)%float.

(** Nominatim finds every address but "Nowhere" and is unreachable for
    "Offline". *)
Definition find_address (q : string) : res (list (float * float)) :=
  if String.eqb q "Nowhere" then Ret []
  else if String.eqb q "Offline" then Exc (Exn false true "Read timed out.")
  else Ret [melbourne].

(** Google finds a route between all addresses but from "Nowhere" (a
    [NOT_FOUND] API error) and is unreachable from "Offline"; the route has
    one leg of [meters] metres, with a toll road when [toll] is set. *)
Definition find_route (meters : Z) (toll : bool) (origin _ : string) (_ : option (list string))
  : res (list (list gleg)) :=
  if String.eqb origin "Nowhere" then Exc (Exn false false "NOT_FOUND")
  else if String.eqb origin "Offline" then Exc (Exn false false "Read timed out.")
  else Ret [[GLeg meters [Some "Head north"; None;
                          Some (if toll then "Merge onto M2 <div>Toll road</div>" else "Turn left")]]].

(** A world whose route is [meters] metres long and whose database raises
    [save] on every insertion, if it is given. *)
Definition world_of (meters : Z) (meters_f : float) (toll : bool) (save : option exn) : world :=
  {| nominatim := find_address;
     osrm := fun _ => Ret (OsrmBody (Some "Ok") [meters_f]);
     gmaps_client := None;
     gmaps_directions := find_route meters toll;
     today := "2024-05-01";
     create_error := fun _ _ => save |}.

Definition post_of (fields : list (string * string)) : gmap string string :=
  list_to_map fields.

(** A POST of the booking form; a field of [extras] replaces the field of
    the same name below. *)
Definition trip (action tier : string) (extras : list (string * string)) : request :=
  Request "POST"
    (post_of (extras ++
              [ ("action", action);
                ("passenger_name", "Ada Byron");
                ("pickup_address", " 1 Collins St, Melbourne ");
                ("destination_address", "Melbourne Airport");
                ("limo_service_type", tier);
                ("total_price", "1.00") ])).

Definition empty_server : server := Server ∅ [].

(** A session in which a [calculate] has left the price 65.00 pending. *)
Definition priced_server : server :=
  Server (pending 65 [("base", PFloat 30)] false ∅) [].

(** The database is down. *)
Definition db_down : exn := Exn false false "database is locked".

End Sample.

(** ** Four sentences of the specification, as they are written *)

Module Claimed.

Definition view : Type := world -> request -> server -> server * res response.

(** After a successful [calculate], the stored price is the rounded subtotal
    of the breakdown, times 2 for a return ride. *)
Definition final_is_rounded_subtotal_times (v : view) : Prop :=
  forall w req st fp sub,
    posts req "calculate" ->
    rendered (snd (v w req st)) = Some "orders/booking_summary_preview.html" ->
    let st' := fst (v w req st) in
    session st' !! "pending_price" = Some (PFloat fp) ->
    session_dict_entry st' "pending_breakdown" "subtotal_before_return" = Some (PFloat sub) ->
    fp = if post_in (POST req) "return_ride" then (sub * 2)%float else sub.


(** A network failure never shows a message that asks to correct the
    addresses. *)
Definition network_failure_is_not_address_error (v : view) (offline : world -> request -> Prop)
  : Prop :=
  forall w req st msg,
    posts req "calculate" ->
    offline w req ->
    shown "error" (snd (v w req st)) = Some (CVal (PStr msg)) ->
    Spec.address_correction msg = false.

(** When saving fails, the three pending keys have all been consumed. *)
Definition failed_save_consumes_all (v : view) : Prop :=
  forall w req st p e,
    posts req "confirm" ->
    session st !! "pending_price" = Some (PFloat p) ->
    (forall table r, create_error w table r = Some e) ->
    let st' := fst (v w req st) in
    session st' !! "pending_price" = None /\
    session st' !! "pending_breakdown" = None /\
    session st' !! "pending_has_tolls" = None.

End Claimed.



(** The resolver of [bookings] fails with a transport error of [requests]. *)
Definition bookings_offline (w : world) (req : request) : Prop :=
  exists e,
    Bookings.get_route w (Bookings.pickup (POST req)) (Bookings.destination (POST req))
                       (Bookings.extra_stop (POST req)) = Exc e /\
    is_ValueError e = false /\ is_RequestException e = true.




(** ** Vocabulary of the further properties *)

(** [s] is a sequence of whitespace characters (possibly none). *)
Definition blank (s : string) : Prop :=
  exists ws, Forall (fun w => In w py_whitespace) ws /\ s = fold_right String.append "" ws.

(** [s] begins with a whitespace character. *)
Definition starts_space (s : string) : Prop :=
  exists w rest, In w py_whitespace /\ s = w +:+ rest.

(** [s] ends with a whitespace character. *)
Definition ends_space (s : string) : Prop :=
  exists front w, In w py_whitespace /\ s = front +:+ w.

(** A NO-BREAK SPACE, U+00A0. *)
Definition nbsp : string := String (ascii_of_nat 194) (String (ascii_of_nat 160) "").

(** An IDEOGRAPHIC SPACE, U+3000. *)
Definition wide_space : string :=
  String (ascii_of_nat 227) (String (ascii_of_nat 128) (String (ascii_of_nat 128) "")).

(** The three session keys of the flow. *)
Definition pending_keys : list string :=
  [ "pending_price"; "pending_breakdown"; "pending_has_tolls" ].

(** The POST keys, other than [action], that both views read. *)
Definition field_keys : list string :=
  [ "pickup_address"; "destination_address"; "additional_stop"; "limo_service_type";
    "baby_seat"; "return_ride"; "passenger_name"; "passenger_number"; "passenger_email";
    "number_of_passengers"; "number_of_bags"; "flight_number"; "pickup_date";
    "pickup_time"; "special_instruction"; "vehicle_colour"; "wedding_ribbon";
    "special_signboard"; "name_on_card"; "card_type"; "card_number" ].

(** Two submissions carry the same value, or both none, under each of [keys]. *)
Definition agree_on (keys : list string) (p q : gmap string string) : Prop :=
  forall k, In k keys -> p !! k = q !! k.

(** [sum(leg['distance']['value'] for leg in legs)], as a sum. *)
Definition meters_sum (legs : list gleg) : Z :=
  fold_right (fun leg acc => distance_value leg + acc) 0 legs.

(** A world in which OSRM answers Ok without any route. *)
Definition world_without_routes : world :=
  {| nominatim := Sample.find_address;
     osrm := fun _ => Ret (OsrmBody (Some "Ok") []);
     gmaps_client := None;
     gmaps_directions := Sample.find_route 10000 false;
     today := "2024-05-01";
     create_error := fun _ _ => None |}.

(** A world in which the Google client cannot be built. *)
Definition world_without_key : world :=
  {| nominatim := Sample.find_address;
     osrm := fun _ => Ret (OsrmBody (Some "Ok") [10000%float]);
     gmaps_client := Some (ValueError "Invalid API key provided.");
     gmaps_directions := Sample.find_route 10000 false;
     today := "2024-05-01";
     create_error := fun _ _ => None |}.

(** Section 1 of the specification, as it is written: for the same
    submission and the same resolved distance the two views store the same
    pending state. *)
Definition resolved_trip_has_one_outcome : Prop :=
  forall w req st d tolls,
    posts req "calculate" ->
    gmaps_client w = None ->
    Bookings.get_route w (Bookings.pickup (POST req)) (Bookings.destination (POST req))
                       (Bookings.extra_stop (POST req)) = Ret d ->
    Orders.resolve w (Orders.pickup (POST req)) (Orders.destination (POST req))
                   (Orders.extra_stop (POST req)) = Ret (d, tolls) ->
    fst (Bookings.bookings w req st) = fst (Orders.orders w req st).

(** The same section: [bookings] reads no form field that [orders] does not
    read. *)
Definition bookings_reads_the_fields_of_orders : Prop :=
  forall w m p q st,
    agree_on ("action" :: field_keys) p q ->
    Bookings.bookings w (Request m p) st = Bookings.bookings w (Request m q) st.

(** ** Equations of the two views, branch by branch *)

Lemma session_pop_eq (k : string) (d : pyval) (s : gmap string pyval) :
  session_pop k d s = (default d (s !! k), delete k s).
Proof.
  unfold session_pop. destruct (s !! k) eqn:E; simpl; [done|].
  by rewrite delete_id.
Qed.

Lemma confirm_is_not_calculate : String.eqb "confirm" "calculate" = false.
Proof. reflexivity. Qed.

Lemma server_eta (st : server) : Server (session st) (db st) = st.
Proof. by destruct st. Qed.

Section BookingsSteps.
Variables (w : world) (req : request) (st : server).
Let post := POST req.
Let fd := Bookings.form_data w post.

Lemma bookings_calculate_ok (d : float) :
  posts req "calculate" ->
  Bookings.get_route w (Bookings.pickup post) (Bookings.destination post)
                     (Bookings.extra_stop post) = Ret d ->
  Bookings.bookings w req st =
    let tolls := post_in post "has_tolls" in
    let c := Bookings.conf (Bookings.service_type post) in
    let s := Bookings.subtotal c d (Bookings.extra_stop post) tolls (Bookings.has_baby_seat post) in
    let fp := Bookings.final_price s (Bookings.is_return_ride post) in
    let bd := Bookings.breakdown c d (Bookings.extra_stop post) tolls
                (Bookings.has_baby_seat post) (Bookings.is_return_ride post) s in
    (Server (pending fp bd tolls (session st)) (db st), Ret (preview_page fd fp bd tolls d)).
Proof.
  intros [Hm Ha] Hr. unfold Bookings.bookings. cbv zeta.
  rewrite Hm, String.eqb_refl, Ha, String.eqb_refl.
  fold post. rewrite Hr. reflexivity.
Qed.

Lemma bookings_calculate_exc (e : exn) :
  posts req "calculate" ->
  Bookings.get_route w (Bookings.pickup post) (Bookings.destination post)
                     (Bookings.extra_stop post) = Exc e ->
  Bookings.bookings w req st =
    (st, if is_ValueError e then
           Ret (form_page "bookings/booking_form.html" (message e) fd)
         else if is_RequestException e then
           Ret (form_page "bookings/booking_form.html"
                  "Could not connect to the routing service. Please check your addresses and try again." fd)
         else Exc e).
Proof.
  intros [Hm Ha] Hr. unfold Bookings.bookings. cbv zeta.
  rewrite Hm, String.eqb_refl, Ha, String.eqb_refl.
  fold post. rewrite Hr.
  destruct (is_ValueError e); [reflexivity|].
  destruct (is_RequestException e); reflexivity.
Qed.

Lemma bookings_confirm_expired :
  posts req "confirm" ->
  session st !! "pending_price" = None ->
  Bookings.bookings w req st =
    (st, Ret (form_page "bookings/booking_form.html"
                "Your session expired. Please fill in the form again." fd)).
Proof.
  intros [Hm Ha] Hs. unfold Bookings.bookings. cbv zeta.
  rewrite Hm, String.eqb_refl, Ha, confirm_is_not_calculate, String.eqb_refl.
  unfold session_pop. rewrite Hs, server_eta. reflexivity.
Qed.

Lemma bookings_confirm_none :
  posts req "confirm" ->
  session st !! "pending_price" = Some PNone ->
  Bookings.bookings w req st =
    (Server (delete "pending_price" (session st)) (db st),
     Ret (form_page "bookings/booking_form.html"
            "Your session expired. Please fill in the form again." fd)).
Proof.
  intros [Hm Ha] Hs. unfold Bookings.bookings. cbv zeta.
  rewrite Hm, String.eqb_refl, Ha, confirm_is_not_calculate, String.eqb_refl.
  unfold session_pop at 1. rewrite Hs. reflexivity.
Qed.

Lemma bookings_confirm_priced (v : pyval) :
  posts req "confirm" ->
  session st !! "pending_price" = Some v ->
  v <> PNone ->
  Bookings.bookings w req st =
    confirm_outcome w st "bookings/booking_form.html" fd
      (Bookings.new_order w post v) (Bookings.is_return_ride post).
Proof.
  intros [Hm Ha] Hs Hv. unfold Bookings.bookings. cbv zeta.
  rewrite Hm, String.eqb_refl, Ha, confirm_is_not_calculate, String.eqb_refl.
  unfold session_pop at 1. rewrite Hs. fold post.
  unfold confirm_outcome, objects_create, consumed.
  rewrite !session_pop_eq.
  rewrite (lookup_delete_ne _ "pending_breakdown" "pending_has_tolls") by done.
  rewrite !(lookup_delete_ne _ "pending_price") by done.
  destruct v; try congruence;
    destruct (create_error w (db st) _); reflexivity.
Qed.
End BookingsSteps.

Section OrdersSteps.
Variables (w : world) (req : request) (st : server).
Let post := POST req.
Let fd := Orders.form_data w post.

Lemma orders_calculate_ok (d : float) (tolls : bool) :
  posts req "calculate" ->
  gmaps_client w = None ->
  Orders.resolve w (Orders.pickup post) (Orders.destination post)
                 (Orders.extra_stop post) = Ret (d, tolls) ->
  Orders.orders w req st =
    let c := Orders.conf (Orders.service_type post) in
    let s := Orders.subtotal c d (Orders.extra_stop post) tolls (Orders.has_baby_seat post) in
    let fp := Orders.final_price s (Orders.is_return_ride post) in
    let bd := Orders.breakdown c d (Orders.extra_stop post) tolls
                (Orders.has_baby_seat post) (Orders.is_return_ride post) s in
    (Server (pending fp bd tolls (session st)) (db st), Ret (preview_page fd fp bd tolls d)).
Proof.
  intros [Hm Ha] Hc Hr. unfold Orders.orders. cbv zeta.
  rewrite Hm, String.eqb_refl, Ha, String.eqb_refl, Hc.
  fold post. rewrite Hr. reflexivity.
Qed.

Lemma orders_calculate_exc (e : exn) :
  posts req "calculate" ->
  gmaps_client w = None ->
  Orders.resolve w (Orders.pickup post) (Orders.destination post)
                 (Orders.extra_stop post) = Exc e ->
  Orders.orders w req st =
    (st, Ret (form_page "orders/booking_form.html"
                ("Route calculation failed: " +:+ message e) fd)).
Proof.
  intros [Hm Ha] Hc Hr. unfold Orders.orders. cbv zeta.
  rewrite Hm, String.eqb_refl, Ha, String.eqb_refl, Hc.
  fold post. rewrite Hr. reflexivity.
Qed.

Lemma orders_calculate_no_client (e : exn) :
  posts req "calculate" ->
  gmaps_client w = Some e ->
  Orders.orders w req st = (st, Exc e).
Proof.
  intros [Hm Ha] Hc. unfold Orders.orders. cbv zeta.
  rewrite Hm, String.eqb_refl, Ha, String.eqb_refl, Hc. reflexivity.
Qed.

Lemma orders_confirm_expired :
  posts req "confirm" ->
  session st !! "pending_price" = None ->
  Orders.orders w req st =
    (st, Ret (form_page "orders/booking_form.html"
                "Your session expired. Please recalculate the price." fd)).
Proof.
  intros [Hm Ha] Hs. unfold Orders.orders. cbv zeta.
  rewrite Hm, String.eqb_refl, Ha, confirm_is_not_calculate, String.eqb_refl.
  unfold session_pop. rewrite Hs, server_eta. reflexivity.
Qed.

Lemma orders_confirm_none :
  posts req "confirm" ->
  session st !! "pending_price" = Some PNone ->
  Orders.orders w req st =
    (Server (delete "pending_price" (session st)) (db st),
     Ret (form_page "orders/booking_form.html"
            "Your session expired. Please recalculate the price." fd)).
Proof.
  intros [Hm Ha] Hs. unfold Orders.orders. cbv zeta.
  rewrite Hm, String.eqb_refl, Ha, confirm_is_not_calculate, String.eqb_refl.
  unfold session_pop at 1. rewrite Hs. reflexivity.
Qed.

Lemma orders_confirm_priced (v : pyval) :
  posts req "confirm" ->
  session st !! "pending_price" = Some v ->
  v <> PNone ->
  Orders.orders w req st =
    confirm_outcome w st "orders/booking_form.html" fd
      (Orders.new_order w post v) (Orders.is_return_ride post).
Proof.
  intros [Hm Ha] Hs Hv. unfold Orders.orders. cbv zeta.
  rewrite Hm, String.eqb_refl, Ha, confirm_is_not_calculate, String.eqb_refl.
  unfold session_pop at 1. rewrite Hs. fold post.
  unfold confirm_outcome, objects_create, consumed.
  rewrite !session_pop_eq.
  rewrite (lookup_delete_ne _ "pending_breakdown" "pending_has_tolls") by done.
  rewrite !(lookup_delete_ne _ "pending_price") by done.
  destruct v; try congruence;
    destruct (create_error w (db st) _); reflexivity.
Qed.
End OrdersSteps.

(** Requests that are neither a [calculate] nor a [confirm] POST change
    nothing. *)
Lemma bookings_other (w : world) (req : request) (st : server) :
  ~ posts req "calculate" -> ~ posts req "confirm" ->
  fst (Bookings.bookings w req st) = st.
Proof.
  intros Hc Hf. unfold Bookings.bookings. cbv zeta.
  destruct (String.eqb_spec (method req) "POST") as [Hm|]; [|done].
  destruct (String.eqb_spec (post_get (POST req) "action" "calculate") "calculate") as [Ha|].
  { destruct Hc. by split. }
  destruct (String.eqb_spec (post_get (POST req) "action" "calculate") "confirm") as [Ha|]; [|done].
  destruct Hf. by split.
Qed.

Lemma orders_other (w : world) (req : request) (st : server) :
  ~ posts req "calculate" -> ~ posts req "confirm" ->
  fst (Orders.orders w req st) = st.
Proof.
  intros Hc Hf. unfold Orders.orders. cbv zeta.
  destruct (String.eqb_spec (method req) "POST") as [Hm|]; [|done].
  destruct (String.eqb_spec (post_get (POST req) "action" "calculate") "calculate") as [Ha|].
  { destruct Hc. by split. }
  destruct (String.eqb_spec (post_get (POST req) "action" "calculate") "confirm") as [Ha|]; [|done].
  destruct Hf. by split.
Qed.

(** Project the server and the response out of a rewritten outcome. *)
Ltac observe := cbv zeta; cbn [fst snd session db].

(** ** The rate table and the pricing rule *)

Lemma truthy_str_or_none (s : string) :
  py_truthy (opt_val (str_or_none s)) = Spec.given (str_or_none s).
Proof.
  unfold str_or_none. destruct (py_truthy (PStr s)) eqn:E; simpl; [exact E|reflexivity].
Qed.

Lemma conf_of_tier (tier : string) (r : rate) :
  Spec.tier_rate tier = Some r -> Bookings.conf tier = r /\ Orders.conf tier = r.
Proof.
  unfold Spec.tier_rate. intros H.
  destruct (String.eqb_spec tier "Sedan 1-5") as [->|_].
  { inversion H. split; reflexivity. }
  destruct (String.eqb_spec tier "SUV 1-7") as [->|_].
  { inversion H. split; reflexivity. }
  destruct (String.eqb_spec tier "Stretch 1-13") as [->|_].
  { inversion H. split; reflexivity. }
  discriminate.
Qed.

Lemma conf_of_unknown (tier : string) :
  tier <> "Sedan 1-5" -> tier <> "SUV 1-7" -> tier <> "Stretch 1-13" ->
  Bookings.conf tier = Rate 30 3.5 15 /\ Orders.conf tier = Rate 30 3.5 15.
Proof.
  intros H1 H2 H3.
  apply String.eqb_neq in H1, H2, H3.
  unfold Bookings.conf, Orders.conf, Bookings.rates, Orders.rates, dict_get.
  rewrite H1, H2, H3. split; reflexivity.
Qed.

Lemma bookings_price_formula (r : rate) (d : float) (s : string) (tolls baby ret : bool) :
  Bookings.final_price (Bookings.subtotal r d (str_or_none s) tolls baby) ret =
  Spec.final_price r d (Spec.given (str_or_none s)) tolls baby ret.
Proof.
  unfold Bookings.final_price, Bookings.subtotal, Spec.final_price, Spec.subtotal, Spec.plus_if.
  cbv zeta. rewrite truthy_str_or_none.
  destruct (Spec.given (str_or_none s)), tolls, baby, ret; reflexivity.
Qed.

Lemma orders_price_formula (r : rate) (d : float) (s : string) (tolls baby ret : bool) :
  Orders.final_price (Orders.subtotal r d (str_or_none s) tolls baby) ret =
  Spec.final_price r d (Spec.given (str_or_none s)) tolls baby ret.
Proof.
  unfold Orders.final_price, Orders.subtotal, Spec.final_price, Spec.subtotal, Spec.plus_if.
  cbv zeta. rewrite truthy_str_or_none.
  destruct (Spec.given (str_or_none s)), tolls, baby, ret; reflexivity.
Qed.

Lemma pending_price_lookup fp bd tolls (s : gmap string pyval) :
  pending fp bd tolls s !! "pending_price" = Some (PFloat fp).
Proof.
  unfold pending. rewrite !lookup_insert_ne by done. apply lookup_insert_eq.
Qed.

Lemma pending_breakdown_lookup fp bd tolls (s : gmap string pyval) :
  pending fp bd tolls s !! "pending_breakdown" = Some (PDict bd).
Proof.
  unfold pending. rewrite lookup_insert_ne by done. apply lookup_insert_eq.
Qed.

Lemma pending_has_tolls_lookup fp bd tolls (s : gmap string pyval) :
  pending fp bd tolls s !! "pending_has_tolls" = Some (PBool tolls).
Proof. unfold pending. apply lookup_insert_eq. Qed.

(** C1: for each of the three tiers, every distance and every combination of
    flags, a successful [calculate] stores and shows
    round(subtotal * 2 if return_ride else subtotal, 2), where subtotal is
    base + distance_km * per_km plus the stop fee, 18.50 and 20.00 as they
    apply; so the return ride doubles the surcharges too.  Sedan 1-5 at 10 km
    gives 65.00 one way and 130.00 with return; SUV 1-7 at 20 km with stop,
    tolls and baby seat gives 228.50 one way (and 457.00 with return). *)
Theorem C1_final_price_formula :
  (forall w req st d tier r,
      posts req "calculate" ->
      Bookings.get_route w (Bookings.pickup (POST req)) (Bookings.destination (POST req))
                         (Bookings.extra_stop (POST req)) = Ret d ->
      Bookings.service_type (POST req) = tier ->
      Spec.tier_rate tier = Some r ->
      let p := Spec.final_price r d (Spec.given (Bookings.extra_stop (POST req)))
                 (post_in (POST req) "has_tolls")
                 (post_in (POST req) "baby_seat") (post_in (POST req) "return_ride") in
      let out := Bookings.bookings w req st in
      session (fst out) !! "pending_price" = Some (PFloat p) /\
      shown "final_price" (snd out) = Some (CVal (PFloat p))) /\
  (forall w req st d tolls tier r,
      posts req "calculate" ->
      gmaps_client w = None ->
      Orders.resolve w (Orders.pickup (POST req)) (Orders.destination (POST req))
                     (Orders.extra_stop (POST req)) = Ret (d, tolls) ->
      Orders.service_type (POST req) = tier ->
      Spec.tier_rate tier = Some r ->
      let p := Spec.final_price r d (Spec.given (Orders.extra_stop (POST req))) tolls
                 (post_in (POST req) "baby_seat") (post_in (POST req) "return_ride") in
      let out := Orders.orders w req st in
      session (fst out) !! "pending_price" = Some (PFloat p) /\
      shown "final_price" (snd out) = Some (CVal (PFloat p))) /\
  Spec.final_price (Rate 30 3.5 15) 10 false false false false = 65%float /\
  Spec.final_price (Rate 30 3.5 15) 10 false false false true = 130%float /\
  Spec.final_price (Rate 55 5.5 25) 20 true true true false = 228.5%float /\
  Spec.final_price (Rate 55 5.5 25) 20 true true true true = 457%float /\
  (let sedan := Sample.trip "calculate" "Sedan 1-5" [] in
   let sedan_return := Sample.trip "calculate" "Sedan 1-5" [("return_ride", "on")] in
   let suv := Sample.trip "calculate" "SUV 1-7"
                [("additional_stop", "Southbank"); ("has_tolls", "on"); ("baby_seat", "on")] in
   let w10 := Sample.world_of 10000 10000 false None in
   let w20 := Sample.world_of 20000 20000 true None in
   let price out := session (fst out) !! "pending_price" in
   price (Bookings.bookings w10 sedan Sample.empty_server) = Some (PFloat 65) /\
   price (Orders.orders w10 sedan Sample.empty_server) = Some (PFloat 65) /\
   price (Bookings.bookings w10 sedan_return Sample.empty_server) = Some (PFloat 130) /\
   price (Orders.orders w10 sedan_return Sample.empty_server) = Some (PFloat 130) /\
   price (Bookings.bookings w20 suv Sample.empty_server) = Some (PFloat 228.5) /\
   price (Orders.orders w20 suv Sample.empty_server) = Some (PFloat 228.5)).
Proof.
  split; [|split].
  - intros w req st d tier r Hp Hr Ht Hrate p out. subst p out.
    rewrite (bookings_calculate_ok w req st d Hp Hr). observe.
    rewrite Ht. destruct (conf_of_tier tier r Hrate) as [-> _].
    unfold Bookings.extra_stop, Bookings.has_baby_seat, Bookings.is_return_ride.
    rewrite bookings_price_formula, pending_price_lookup. split; reflexivity.
  - intros w req st d tolls tier r Hp Hc Hr Ht Hrate p out. subst p out.
    rewrite (orders_calculate_ok w req st d tolls Hp Hc Hr). observe.
    rewrite Ht. destruct (conf_of_tier tier r Hrate) as [_ ->].
    unfold Orders.extra_stop, Orders.has_baby_seat, Orders.is_return_ride.
    rewrite orders_price_formula, pending_price_lookup. split; reflexivity.
  - repeat split; vm_compute; reflexivity.
Qed.

Lemma C1_final_price_formula_witness :
  let w10 := Sample.world_of 10000 10000 false None in
  let req := Sample.trip "calculate" "Sedan 1-5" [("return_ride", "on")] in
  session (fst (Bookings.bookings w10 req Sample.empty_server)) !! "pending_price"
    = Some (PFloat (Spec.final_price (Rate 30 3.5 15) 10 false false false true)) /\
  session (fst (Orders.orders w10 req Sample.empty_server)) !! "pending_price"
    = Some (PFloat (Spec.final_price (Rate 30 3.5 15) 10 false false false true)).
Proof.
  intros w10 req.
  destruct C1_final_price_formula as (HB & HO & _).
  split.
  - apply (HB w10 req Sample.empty_server 10%float "Sedan 1-5" (Rate 30 3.5 15));
      [split; reflexivity | reflexivity | reflexivity | reflexivity].
  - apply (HO w10 req Sample.empty_server 10%float false "Sedan 1-5" (Rate 30 3.5 15));
      [split; reflexivity | reflexivity | reflexivity | reflexivity | reflexivity].
Defined.

(** ** What a request does to the table *)

Lemma not_persisted_same_table (st : server) (s : gmap string pyval) (r : row) :
  ~ persisted st (Server s (db st)) r.
Proof.
  unfold persisted. simpl. intros H. apply (f_equal length) in H.
  rewrite length_app in H. simpl in H. lia.
Qed.

Lemma not_persisted_same (st : server) (r : row) : ~ persisted st st r.
Proof. rewrite <- (server_eta st) at 2. apply not_persisted_same_table. Qed.

Lemma posts_dec (req : request) (a : string) : posts req a \/ ~ posts req a.
Proof.
  unfold posts.
  destruct (String.eqb_spec (method req) "POST");
    destruct (String.eqb_spec (post_get (POST req) "action" "calculate") a); tauto.
Qed.

Lemma none_or_not (v : pyval) : v = PNone \/ v <> PNone.
Proof. destruct v; auto; right; discriminate. Qed.

Lemma persisted_confirm_outcome w st tpl fd order ret r :
  persisted st (fst (confirm_outcome w st tpl fd order ret)) r -> r = order.
Proof.
  unfold confirm_outcome. destruct (create_error w (db st) order); simpl.
  - intros H. by apply not_persisted_same_table in H.
  - unfold persisted. simpl. intros H. apply app_inv_head in H. congruence.
Qed.

(** Only a [confirm] that popped a price adds a row, and the row is the one
    built from that price. *)
Lemma bookings_persisted (w : world) (req : request) (st : server) (r : row) :
  persisted st (fst (Bookings.bookings w req st)) r ->
  exists v, session st !! "pending_price" = Some v /\ v <> PNone /\
            posts req "confirm" /\ r = Bookings.new_order w (POST req) v.
Proof.
  intros H.
  destruct (posts_dec req "calculate") as [Hc|Hc].
  { destruct (Bookings.get_route w (Bookings.pickup (POST req))
                (Bookings.destination (POST req)) (Bookings.extra_stop (POST req))) eqn:Hr.
    - rewrite (bookings_calculate_ok w req st a Hc Hr) in H.
      by apply not_persisted_same_table in H.
    - rewrite (bookings_calculate_exc w req st e Hc Hr) in H.
      by apply not_persisted_same in H. }
  destruct (posts_dec req "confirm") as [Hf|Hf].
  2:{ rewrite (bookings_other w req st Hc Hf) in H. by apply not_persisted_same in H. }
  destruct (session st !! "pending_price") as [v|] eqn:Hs.
  2:{ rewrite (bookings_confirm_expired w req st Hf Hs) in H.
      by apply not_persisted_same in H. }
  destruct (none_or_not v) as [->|Hv].
  { rewrite (bookings_confirm_none w req st Hf Hs) in H.
    by apply not_persisted_same_table in H. }
  rewrite (bookings_confirm_priced w req st v Hf Hs Hv) in H.
  apply persisted_confirm_outcome in H. eauto.
Qed.

Lemma orders_persisted (w : world) (req : request) (st : server) (r : row) :
  persisted st (fst (Orders.orders w req st)) r ->
  exists v, session st !! "pending_price" = Some v /\ v <> PNone /\
            posts req "confirm" /\ r = Orders.new_order w (POST req) v.
Proof.
  intros H.
  destruct (posts_dec req "calculate") as [Hc|Hc].
  { destruct (gmaps_client w) as [e|] eqn:Hg.
    { rewrite (orders_calculate_no_client w req st e Hc Hg) in H.
      by apply not_persisted_same in H. }
    destruct (Orders.resolve w (Orders.pickup (POST req))
                (Orders.destination (POST req)) (Orders.extra_stop (POST req))) eqn:Hr.
    - destruct a as [d tolls].
      rewrite (orders_calculate_ok w req st d tolls Hc Hg Hr) in H.
      by apply not_persisted_same_table in H.
    - rewrite (orders_calculate_exc w req st e Hc Hg Hr) in H.
      by apply not_persisted_same in H. }
  destruct (posts_dec req "confirm") as [Hf|Hf].
  2:{ rewrite (orders_other w req st Hc Hf) in H. by apply not_persisted_same in H. }
  destruct (session st !! "pending_price") as [v|] eqn:Hs.
  2:{ rewrite (orders_confirm_expired w req st Hf Hs) in H.
      by apply not_persisted_same in H. }
  destruct (none_or_not v) as [->|Hv].
  { rewrite (orders_confirm_none w req st Hf Hs) in H.
    by apply not_persisted_same_table in H. }
  rewrite (orders_confirm_priced w req st v Hf Hs Hv) in H.
  apply persisted_confirm_outcome in H. eauto.
Qed.

(** C2: the [total_price] of a row a request persists is the [pending_price]
    of the session the request found; hence two submissions made against the
    same session, whatever fields they carry, persist the same price. *)
Theorem C2_persisted_price_is_session_price :
  (forall w req st r,
      persisted st (fst (Bookings.bookings w req st)) r ->
      session st !! "pending_price" = Some (total_price r)) /\
  (forall w req st r,
      persisted st (fst (Orders.orders w req st)) r ->
      session st !! "pending_price" = Some (total_price r)) /\
  (forall w1 w2 req1 req2 st r1 r2,
      persisted st (fst (Bookings.bookings w1 req1 st)) r1 ->
      persisted st (fst (Bookings.bookings w2 req2 st)) r2 ->
      total_price r1 = total_price r2) /\
  (forall w1 w2 req1 req2 st r1 r2,
      persisted st (fst (Orders.orders w1 req1 st)) r1 ->
      persisted st (fst (Orders.orders w2 req2 st)) r2 ->
      total_price r1 = total_price r2).
Proof.
  assert (HB : forall w req st r,
             persisted st (fst (Bookings.bookings w req st)) r ->
             session st !! "pending_price" = Some (total_price r)).
  { intros w req st r H.
    destruct (bookings_persisted w req st r H) as (v & Hs & _ & _ & ->). exact Hs. }
  assert (HO : forall w req st r,
             persisted st (fst (Orders.orders w req st)) r ->
             session st !! "pending_price" = Some (total_price r)).
  { intros w req st r H.
    destruct (orders_persisted w req st r H) as (v & Hs & _ & _ & ->). exact Hs. }
  repeat split; auto.
  - intros w1 w2 req1 req2 st r1 r2 H1 H2.
    apply HB in H1, H2. congruence.
  - intros w1 w2 req1 req2 st r1 r2 H1 H2.
    apply HO in H1, H2. congruence.
Qed.

Lemma C2_persisted_price_is_session_price_witness :
  let w := Sample.world_of 10000 10000 false None in
  let honest := Sample.trip "confirm" "Sedan 1-5" [] in
  let forged := Sample.trip "confirm" "Stretch 1-13"
                  [("final_price", "0.01"); ("pending_price", "0.01"); ("price", "0.01")] in
  total_price (Bookings.new_order w (POST honest) (PFloat 65)) =
  total_price (Bookings.new_order w (POST forged) (PFloat 65)) /\
  total_price (Orders.new_order w (POST honest) (PFloat 65)) =
  total_price (Orders.new_order w (POST forged) (PFloat 65)).
Proof.
  intros w honest forged.
  destruct C2_persisted_price_is_session_price as (_ & _ & HB & HO).
  split.
  - apply (HB w w honest forged Sample.priced_server); vm_compute; reflexivity.
  - apply (HO w w honest forged Sample.priced_server); vm_compute; reflexivity.
Defined.

(** ** The price is consumed once *)

Lemma consumed_lookup_price (s : gmap string pyval) : consumed s !! "pending_price" = None.
Proof.
  unfold consumed. rewrite !lookup_delete_ne by done. apply lookup_delete_eq.
Qed.

Lemma confirm_outcome_clears w st tpl fd order ret :
  session (fst (confirm_outcome w st tpl fd order ret)) !! "pending_price" = None.
Proof.
  unfold confirm_outcome. destruct (create_error w (db st) order); cbn [fst session].
  - apply lookup_delete_eq.
  - apply consumed_lookup_price.
Qed.

Lemma bookings_confirm_clears (w : world) (req : request) (st : server) :
  posts req "confirm" ->
  session (fst (Bookings.bookings w req st)) !! "pending_price" = None.
Proof.
  intros Hf.
  destruct (session st !! "pending_price") as [v|] eqn:Hs.
  2:{ by rewrite (bookings_confirm_expired w req st Hf Hs). }
  destruct (none_or_not v) as [->|Hv].
  - rewrite (bookings_confirm_none w req st Hf Hs). apply lookup_delete_eq.
  - rewrite (bookings_confirm_priced w req st v Hf Hs Hv). apply confirm_outcome_clears.
Qed.

Lemma orders_confirm_clears (w : world) (req : request) (st : server) :
  posts req "confirm" ->
  session (fst (Orders.orders w req st)) !! "pending_price" = None.
Proof.
  intros Hf.
  destruct (session st !! "pending_price") as [v|] eqn:Hs.
  2:{ by rewrite (orders_confirm_expired w req st Hf Hs). }
  destruct (none_or_not v) as [->|Hv].
  - rewrite (orders_confirm_none w req st Hf Hs). apply lookup_delete_eq.
  - rewrite (orders_confirm_priced w req st v Hf Hs Hv). apply confirm_outcome_clears.
Qed.

(** C3: a [confirm] that finds no [pending_price] in the session renders the
    form with the session-expired error and leaves the session and the table
    as they were; and whatever a first [confirm] did, a [confirm] that follows
    it directly finds no price and ends in the same way. *)
Theorem C3_confirm_without_price_expires :
  (forall w req st,
      posts req "confirm" ->
      session st !! "pending_price" = None ->
      Bookings.bookings w req st =
        (st, Ret (form_page "bookings/booking_form.html"
                    "Your session expired. Please fill in the form again."
                    (Bookings.form_data w (POST req))))) /\
  (forall w req st,
      posts req "confirm" ->
      session st !! "pending_price" = None ->
      Orders.orders w req st =
        (st, Ret (form_page "orders/booking_form.html"
                    "Your session expired. Please recalculate the price."
                    (Orders.form_data w (POST req))))) /\
  (forall w1 w2 req1 req2 st,
      posts req1 "confirm" ->
      posts req2 "confirm" ->
      let st1 := fst (Bookings.bookings w1 req1 st) in
      Bookings.bookings w2 req2 st1 =
        (st1, Ret (form_page "bookings/booking_form.html"
                     "Your session expired. Please fill in the form again."
                     (Bookings.form_data w2 (POST req2))))) /\
  (forall w1 w2 req1 req2 st,
      posts req1 "confirm" ->
      posts req2 "confirm" ->
      let st1 := fst (Orders.orders w1 req1 st) in
      Orders.orders w2 req2 st1 =
        (st1, Ret (form_page "orders/booking_form.html"
                     "Your session expired. Please recalculate the price."
                     (Orders.form_data w2 (POST req2))))).
Proof.
  repeat split.
  - intros w req st Hf Hs. by apply bookings_confirm_expired.
  - intros w req st Hf Hs. by apply orders_confirm_expired.
  - intros w1 w2 req1 req2 st H1 H2 st1.
    apply bookings_confirm_expired; [exact H2|]. by apply bookings_confirm_clears.
  - intros w1 w2 req1 req2 st H1 H2 st1.
    apply orders_confirm_expired; [exact H2|]. by apply orders_confirm_clears.
Qed.

Lemma C3_confirm_without_price_expires_witness :
  let w := Sample.world_of 10000 10000 false None in
  let req := Sample.trip "confirm" "Sedan 1-5" [] in
  (* no calculate before *)
  fst (Bookings.bookings w req Sample.empty_server) = Sample.empty_server /\
  fst (Orders.orders w req Sample.empty_server) = Sample.empty_server /\
  (* a successful confirm, then a second one *)
  (let st1 := fst (Bookings.bookings w req Sample.priced_server) in
   length (db st1) = 1%nat /\
   rendered (snd (Bookings.bookings w req st1)) = Some "bookings/booking_form.html" /\
   fst (Bookings.bookings w req st1) = st1) /\
  (let st1 := fst (Orders.orders w req Sample.priced_server) in
   length (db st1) = 1%nat /\
   rendered (snd (Orders.orders w req st1)) = Some "orders/booking_form.html" /\
   fst (Orders.orders w req st1) = st1).
Proof.
  intros w req.
  destruct C3_confirm_without_price_expires as (HB & HO & HB2 & HO2).
  assert (Hp : posts req "confirm") by (split; reflexivity).
  split; [|split; [|split]].
  - rewrite (HB w req Sample.empty_server Hp); reflexivity.
  - rewrite (HO w req Sample.empty_server Hp); reflexivity.
  - intros st1. split; [reflexivity|].
    subst st1. rewrite (HB2 w w req req Sample.priced_server Hp Hp). split; reflexivity.
  - intros st1. split; [reflexivity|].
    subst st1. rewrite (HO2 w w req req Sample.priced_server Hp Hp). split; reflexivity.
Defined.

(** ** Rounding of the breakdown *)

Lemma bookings_subtotal_formula (r : rate) (d : float) (s : string) (tolls baby : bool) :
  Bookings.subtotal r d (str_or_none s) tolls baby =
  Spec.subtotal r d (Spec.given (str_or_none s)) tolls baby.
Proof.
  unfold Bookings.subtotal, Spec.subtotal, Spec.plus_if.
  cbv zeta. rewrite truthy_str_or_none.
  destruct (Spec.given (str_or_none s)), tolls, baby; reflexivity.
Qed.

Lemma orders_subtotal_formula (r : rate) (d : float) (s : string) (tolls baby : bool) :
  Orders.subtotal r d (str_or_none s) tolls baby =
  Spec.subtotal r d (Spec.given (str_or_none s)) tolls baby.
Proof.
  unfold Orders.subtotal, Spec.subtotal, Spec.plus_if.
  cbv zeta. rewrite truthy_str_or_none.
  destruct (Spec.given (str_or_none s)), tolls, baby; reflexivity.
Qed.

(** C4, as stated, fails: a Sedan 1-5 return ride over 10.01 km stores the
    price 130.07, while the rounded subtotal of its breakdown is 65.03, whose
    double is 130.06. *)
Lemma C4_final_is_rounded_subtotal_times_counterexample :
  ~ Claimed.final_is_rounded_subtotal_times Bookings.bookings /\
  ~ Claimed.final_is_rounded_subtotal_times Orders.orders.
Proof.
  set (w := Sample.world_of 10010 10010 false None).
  set (req := Sample.trip "calculate" "Sedan 1-5" [("return_ride", "on")]).
  assert (Hne : 130.07%float <> (65.03 * 2)%float).
  { intros H. apply (f_equal (fun x => PrimFloat.eqb x 130.07)) in H.
    vm_compute in H. discriminate. }
  split; intros H.
  - apply Hne.
    apply (H w req Sample.empty_server 130.07%float 65.03%float);
      [split; reflexivity | reflexivity | reflexivity | reflexivity].
  - apply Hne.
    apply (H w req Sample.empty_server 130.07%float 65.03%float);
      [split; reflexivity | reflexivity | reflexivity | reflexivity].
Qed.

(** C4, amended: after a successful [calculate] the stored price and the
    [subtotal_before_return] of the breakdown are two roundings of the same
    unrounded subtotal s: the price is round(s * 2, 2) for a return ride and
    round(s, 2) otherwise, [subtotal_before_return] is round(s, 2) and
    [distance_cost] is round(distance_km * per_km, 2); so the price equals
    [subtotal_before_return] when [return_ride] is not set. *)
Theorem C4_price_and_subtotal_round_the_same_sum :
  (forall w req st d,
      posts req "calculate" ->
      Bookings.get_route w (Bookings.pickup (POST req)) (Bookings.destination (POST req))
                         (Bookings.extra_stop (POST req)) = Ret d ->
      let r := Bookings.conf (Bookings.service_type (POST req)) in
      let ret := post_in (POST req) "return_ride" in
      let s := Spec.subtotal r d (Spec.given (Bookings.extra_stop (POST req)))
                 (post_in (POST req) "has_tolls") (post_in (POST req) "baby_seat") in
      let st' := fst (Bookings.bookings w req st) in
      session st' !! "pending_price"
        = Some (PFloat (py_round (if ret then (s * 2)%float else s) 2)) /\
      session_dict_entry st' "pending_breakdown" "subtotal_before_return"
        = Some (PFloat (py_round s 2)) /\
      session_dict_entry st' "pending_breakdown" "distance_cost"
        = Some (PFloat (py_round (d * per_km r)%float 2)) /\
      (ret = false ->
       session st' !! "pending_price"
         = session_dict_entry st' "pending_breakdown" "subtotal_before_return")) /\
  (forall w req st d tolls,
      posts req "calculate" ->
      gmaps_client w = None ->
      Orders.resolve w (Orders.pickup (POST req)) (Orders.destination (POST req))
                     (Orders.extra_stop (POST req)) = Ret (d, tolls) ->
      let r := Orders.conf (Orders.service_type (POST req)) in
      let ret := post_in (POST req) "return_ride" in
      let s := Spec.subtotal r d (Spec.given (Orders.extra_stop (POST req)))
                 tolls (post_in (POST req) "baby_seat") in
      let st' := fst (Orders.orders w req st) in
      session st' !! "pending_price"
        = Some (PFloat (py_round (if ret then (s * 2)%float else s) 2)) /\
      session_dict_entry st' "pending_breakdown" "subtotal_before_return"
        = Some (PFloat (py_round s 2)) /\
      session_dict_entry st' "pending_breakdown" "distance_cost"
        = Some (PFloat (py_round (d * per_km r)%float 2)) /\
      (ret = false ->
       session st' !! "pending_price"
         = session_dict_entry st' "pending_breakdown" "subtotal_before_return")).
Proof.
  split.
  - intros w req st d Hp Hr r ret s st'. subst st'.
    rewrite (bookings_calculate_ok w req st d Hp Hr). observe.
    unfold session_dict_entry. cbn [session].
    rewrite pending_price_lookup, pending_breakdown_lookup.
    unfold Bookings.extra_stop, Bookings.has_baby_seat, Bookings.is_return_ride in *.
    rewrite bookings_subtotal_formula.
    fold r s ret. unfold Bookings.final_price. cbv zeta.
    repeat split; try reflexivity.
    intros ->. reflexivity.
  - intros w req st d tolls Hp Hc Hr r ret s st'. subst st'.
    rewrite (orders_calculate_ok w req st d tolls Hp Hc Hr). observe.
    unfold session_dict_entry. cbn [session].
    rewrite pending_price_lookup, pending_breakdown_lookup.
    unfold Orders.extra_stop, Orders.has_baby_seat, Orders.is_return_ride in *.
    rewrite orders_subtotal_formula.
    fold r s ret. unfold Orders.final_price. cbv zeta.
    repeat split; try reflexivity.
    intros ->. reflexivity.
Qed.

Lemma C4_price_and_subtotal_round_the_same_sum_witness :
  let w := Sample.world_of 10010 10010 false None in
  let req := Sample.trip "calculate" "Sedan 1-5" [("return_ride", "on")] in
  (session (fst (Bookings.bookings w req Sample.empty_server)) !! "pending_price"
     = Some (PFloat 130.07) /\
   session_dict_entry (fst (Bookings.bookings w req Sample.empty_server))
       "pending_breakdown" "subtotal_before_return" = Some (PFloat 65.03)) /\
  (session (fst (Orders.orders w req Sample.empty_server)) !! "pending_price"
     = Some (PFloat 130.07) /\
   session_dict_entry (fst (Orders.orders w req Sample.empty_server))
       "pending_breakdown" "subtotal_before_return" = Some (PFloat 65.03)).
Proof.
  intros w req.
  destruct C4_price_and_subtotal_round_the_same_sum as (HB & HO).
  assert (Hp : posts req "calculate") by (split; reflexivity).
  split.
  - destruct (HB w req Sample.empty_server 10.01%float Hp) as (H1 & H2 & _);
      [reflexivity|]. split; [exact H1 | exact H2].
  - destruct (HO w req Sample.empty_server 10.01%float false Hp) as (H1 & H2 & _);
      [reflexivity | reflexivity |]. split; [exact H1 | exact H2].
Defined.

(** ** What [form_data] echoes *)


Section Echo.
Variables (w : world) (post : gmap string string).








End Echo.




(** ** How the resolvers fail *)

Lemma geocode_exc (w : world) (a : string) (e : exn) :
  Bookings.geocode w a = Exc e ->
  e = ValueError ("Address not found: " +:+ a) \/ nominatim w a = Exc e.
Proof.
  unfold Bookings.geocode. destruct (nominatim w a) as [[|hit hits]|e'] eqn:E; simpl.
  - intros [= <-]. by left.
  - discriminate.
  - intros [= <-]. by right.
Qed.

(** Every exception of [get_route] is one of its own three, or comes from one
    of the two providers. *)
Lemma get_route_exc (w : world) (o d : string) (wp : option string) (e : exn) :
  Bookings.get_route w o d wp = Exc e ->
  (exists a, e = ValueError ("Address not found: " +:+ a)) \/
  e = ValueError "OSRM could not calculate a route for the given addresses." \/
  e = IndexError "list index out of range" \/
  (exists a, nominatim w a = Exc e) \/
  (exists coords, osrm w coords = Exc e).
Proof.
  unfold Bookings.get_route.
  destruct (Bookings.geocode w o) as [oc|e1] eqn:E1; simpl.
  2:{ intros [= <-]. apply geocode_exc in E1 as [->|E1]; eauto 6. }
  destruct (Bookings.geocode w d) as [dc|e2] eqn:E2; simpl.
  2:{ intros [= <-]. apply geocode_exc in E2 as [->|E2]; eauto 6. }
  assert (Hosrm : forall coords,
    (data <- osrm w coords ;;
     if negb (opt_val (code data) =? PStr "Ok")%py then
       Exc (ValueError "OSRM could not calculate a route for the given addresses.")
     else
       match routes data with
       | distance_m :: _ => Ret (py_round (distance_m / 1000)%float 2)
       | [] => Exc (IndexError "list index out of range")
       end) = Exc e ->
    e = ValueError "OSRM could not calculate a route for the given addresses." \/
    e = IndexError "list index out of range" \/
    (exists coords, osrm w coords = Exc e)).
  { intros coords. destruct (osrm w coords) as [data|e3] eqn:E3; simpl.
    2:{ intros [= <-]. eauto. }
    destruct (negb _).
    - intros [= <-]. by left.
    - destruct (routes data); [|discriminate]. intros [= <-]. right. by left. }
  destruct (py_truthy (opt_val wp)).
  - destruct (Bookings.geocode w (default "" wp)) as [wc|e4] eqn:E4; simpl.
    2:{ intros [= <-]. apply geocode_exc in E4 as [->|E4]; eauto 6. }
    intros H. apply Hosrm in H. tauto.
  - simpl. intros H. apply Hosrm in H. tauto.
Qed.

Lemma get_route_address_not_found (w : world) (o d : string) (wp : option string) :
  nominatim w o = Ret [] ->
  Bookings.get_route w o d wp = Exc (ValueError ("Address not found: " +:+ o)).
Proof.
  intros H. unfold Bookings.get_route, Bookings.geocode. by rewrite H.
Qed.

Lemma get_route_offline (w : world) (o d : string) (wp : option string) (e : exn) :
  nominatim w o = Exc e -> Bookings.get_route w o d wp = Exc e.
Proof.
  intros H. unfold Bookings.get_route, Bookings.geocode. by rewrite H.
Qed.

(** C6, as stated, fails: when Nominatim cannot be reached, [bookings] shows
    "Could not connect to the routing service. Please check your addresses
    and try again.", a message that asks to correct the addresses. *)
Lemma C6_network_failure_is_not_address_error_counterexample :
  ~ Claimed.network_failure_is_not_address_error Bookings.bookings bookings_offline.
Proof.
  set (w := Sample.world_of 10000 10000 false None).
  set (req := Sample.trip "calculate" "Sedan 1-5" [("pickup_address", "Offline")]).
  intros H.
  assert (Hoff : bookings_offline w req).
  { eexists. split; [reflexivity | split; reflexivity]. }
  specialize (H w req Sample.empty_server
    "Could not connect to the routing service. Please check your addresses and try again."
    (conj eq_refl eq_refl) Hoff eq_refl).
  vm_compute in H. discriminate H.
Qed.

(** C6, amended: [bookings] tells two classes of failure apart.  A
    [ValueError] is shown with its own text, which is "Address not found:
    <address>" when an address has no match and "OSRM could not calculate a
    route for the given addresses." when the route status is not Ok; any
    other [RequestException] is shown as the fixed text "Could not connect
    to the routing service. Please check your addresses and try again.",
    which differs from those two texts but also asks to check the addresses.
    [orders] does not classify: every failure is shown as "Route calculation
    failed: <text of the exception>". *)
Theorem C6_failure_messages :
  (forall w req st e,
      posts req "calculate" ->
      Bookings.get_route w (Bookings.pickup (POST req)) (Bookings.destination (POST req))
                         (Bookings.extra_stop (POST req)) = Exc e ->
      let out := snd (Bookings.bookings w req st) in
      (is_ValueError e = true -> shown "error" out = Some (CVal (PStr (message e)))) /\
      (is_ValueError e = false -> is_RequestException e = true ->
       shown "error" out = Some (CVal (PStr
         "Could not connect to the routing service. Please check your addresses and try again.")))) /\
  (forall w o d wp,
      (nominatim w o = Ret [] ->
       Bookings.get_route w o d wp = Exc (ValueError ("Address not found: " +:+ o))) /\
      (forall e, nominatim w o = Exc e -> Bookings.get_route w o d wp = Exc e) /\
      (forall e, Bookings.get_route w o d wp = Exc e ->
         (exists a, e = ValueError ("Address not found: " +:+ a)) \/
         e = ValueError "OSRM could not calculate a route for the given addresses." \/
         e = IndexError "list index out of range" \/
         (exists a, nominatim w a = Exc e) \/
         (exists coords, osrm w coords = Exc e))) /\
  (forall a,
      "Could not connect to the routing service. Please check your addresses and try again."
        <> "Address not found: " +:+ a /\
      "Could not connect to the routing service. Please check your addresses and try again."
        <> "OSRM could not calculate a route for the given addresses." /\
      "OSRM could not calculate a route for the given addresses."
        <> "Address not found: " +:+ a) /\
  Spec.address_correction
    "Could not connect to the routing service. Please check your addresses and try again."
    = true /\
  (forall w req st e,
      posts req "calculate" ->
      gmaps_client w = None ->
      Orders.resolve w (Orders.pickup (POST req)) (Orders.destination (POST req))
                     (Orders.extra_stop (POST req)) = Exc e ->
      shown "error" (snd (Orders.orders w req st))
        = Some (CVal (PStr ("Route calculation failed: " +:+ message e)))).
Proof.
  split; [|split; [|split; [|split]]].
  - intros w req st e Hp Hr out. subst out.
    rewrite (bookings_calculate_exc w req st e Hp Hr). cbn [snd].
    split.
    + intros ->. reflexivity.
    + intros -> ->. reflexivity.
  - intros w o d wp. split; [|split].
    + apply get_route_address_not_found.
    + intros e. apply get_route_offline.
    + intros e. apply get_route_exc.
  - intros a. split; [|split]; discriminate.
  - reflexivity.
  - intros w req st e Hp Hc Hr.
    rewrite (orders_calculate_exc w req st e Hp Hc Hr). reflexivity.
Qed.

Lemma C6_failure_messages_witness :
  let w := Sample.world_of 10000 10000 false None in
  let lost := Sample.trip "calculate" "Sedan 1-5" [("pickup_address", "Nowhere")] in
  let offline := Sample.trip "calculate" "Sedan 1-5" [("pickup_address", "Offline")] in
  shown "error" (snd (Bookings.bookings w lost Sample.empty_server))
    = Some (CVal (PStr "Address not found: Nowhere")) /\
  shown "error" (snd (Bookings.bookings w offline Sample.empty_server))
    = Some (CVal (PStr
        "Could not connect to the routing service. Please check your addresses and try again.")) /\
  shown "error" (snd (Orders.orders w lost Sample.empty_server))
    = Some (CVal (PStr "Route calculation failed: NOT_FOUND")) /\
  shown "error" (snd (Orders.orders w offline Sample.empty_server))
    = Some (CVal (PStr "Route calculation failed: Read timed out.")).
Proof.
  intros w lost offline.
  destruct C6_failure_messages as (HB & _ & _ & _ & HO).
  assert (Hl : posts lost "calculate") by (split; reflexivity).
  assert (Ho : posts offline "calculate") by (split; reflexivity).
  split; [|split; [|split]].
  - apply (HB w lost Sample.empty_server (ValueError "Address not found: Nowhere") Hl);
      reflexivity.
  - apply (HB w offline Sample.empty_server (Exn false true "Read timed out.") Ho);
      reflexivity.
  - apply (HO w lost Sample.empty_server (Exn false false "NOT_FOUND") Hl); reflexivity.
  - apply (HO w offline Sample.empty_server (Exn false false "Read timed out.") Ho);
      reflexivity.
Defined.

(** C7: a [limo_service_type] outside the three tiers is not rejected: a
    [calculate] whose route resolves renders the preview and stores the price
    and the breakdown of the rates 30.00, 3.50 per km and 15.00 per stop. *)
Theorem C7_unknown_tier_priced_as_sedan :
  (forall w req st d tier,
      posts req "calculate" ->
      Bookings.get_route w (Bookings.pickup (POST req)) (Bookings.destination (POST req))
                         (Bookings.extra_stop (POST req)) = Ret d ->
      POST req !! "limo_service_type" = Some tier ->
      tier <> "Sedan 1-5" -> tier <> "SUV 1-7" -> tier <> "Stretch 1-13" ->
      let sedan := Rate 30 3.5 15 in
      let with_stop := Spec.given (Bookings.extra_stop (POST req)) in
      let out := Bookings.bookings w req st in
      rendered (snd out) = Some "orders/booking_summary_preview.html" /\
      session (fst out) !! "pending_price"
        = Some (PFloat (Spec.final_price sedan d with_stop (post_in (POST req) "has_tolls")
                          (post_in (POST req) "baby_seat") (post_in (POST req) "return_ride"))) /\
      session_dict_entry (fst out) "pending_breakdown" "base" = Some (PFloat 30) /\
      session_dict_entry (fst out) "pending_breakdown" "distance_cost"
        = Some (PFloat (py_round (d * 3.5)%float 2)) /\
      session_dict_entry (fst out) "pending_breakdown" "stop_cost"
        = Some (if with_stop then PFloat 15 else PInt 0)) /\
  (forall w req st d tolls tier,
      posts req "calculate" ->
      gmaps_client w = None ->
      Orders.resolve w (Orders.pickup (POST req)) (Orders.destination (POST req))
                     (Orders.extra_stop (POST req)) = Ret (d, tolls) ->
      POST req !! "limo_service_type" = Some tier ->
      tier <> "Sedan 1-5" -> tier <> "SUV 1-7" -> tier <> "Stretch 1-13" ->
      let sedan := Rate 30 3.5 15 in
      let with_stop := Spec.given (Orders.extra_stop (POST req)) in
      let out := Orders.orders w req st in
      rendered (snd out) = Some "orders/booking_summary_preview.html" /\
      session (fst out) !! "pending_price"
        = Some (PFloat (Spec.final_price sedan d with_stop tolls
                          (post_in (POST req) "baby_seat") (post_in (POST req) "return_ride"))) /\
      session_dict_entry (fst out) "pending_breakdown" "base" = Some (PFloat 30) /\
      session_dict_entry (fst out) "pending_breakdown" "distance_cost"
        = Some (PFloat (py_round (d * 3.5)%float 2)) /\
      session_dict_entry (fst out) "pending_breakdown" "stop_cost"
        = Some (if with_stop then PFloat 15 else PInt 0)).
Proof.
  split.
  - intros w req st d tier Hp Hr Ht H1 H2 H3 sedan with_stop out. subst out.
    rewrite (bookings_calculate_ok w req st d Hp Hr). observe.
    unfold session_dict_entry. cbn [session].
    rewrite pending_price_lookup, pending_breakdown_lookup.
    assert (Hs : Bookings.service_type (POST req) = tier).
    { unfold Bookings.service_type, post_get. by rewrite Ht. }
    rewrite Hs. destruct (conf_of_unknown tier H1 H2 H3) as [-> _].
    unfold Bookings.extra_stop, Bookings.has_baby_seat, Bookings.is_return_ride in *.
    rewrite bookings_price_formula. fold sedan.
    unfold Bookings.breakdown. rewrite truthy_str_or_none.
    repeat (split; [reflexivity|]). reflexivity.
  - intros w req st d tolls tier Hp Hc Hr Ht H1 H2 H3 sedan with_stop out. subst out.
    rewrite (orders_calculate_ok w req st d tolls Hp Hc Hr). observe.
    unfold session_dict_entry. cbn [session].
    rewrite pending_price_lookup, pending_breakdown_lookup.
    assert (Hs : Orders.service_type (POST req) = tier).
    { unfold Orders.service_type, post_get. by rewrite Ht. }
    rewrite Hs. destruct (conf_of_unknown tier H1 H2 H3) as [_ ->].
    unfold Orders.extra_stop, Orders.has_baby_seat, Orders.is_return_ride in *.
    rewrite orders_price_formula. fold sedan.
    unfold Orders.breakdown. rewrite truthy_str_or_none.
    repeat (split; [reflexivity|]). reflexivity.
Qed.

Lemma C7_unknown_tier_priced_as_sedan_witness :
  let w := Sample.world_of 10000 10000 false None in
  let req := Sample.trip "calculate" "Hummer 1-20" [] in
  session (fst (Bookings.bookings w req Sample.empty_server)) !! "pending_price"
    = Some (PFloat 65) /\
  session (fst (Orders.orders w req Sample.empty_server)) !! "pending_price"
    = Some (PFloat 65).
Proof.
  intros w req.
  destruct C7_unknown_tier_priced_as_sedan as (HB & HO).
  assert (Hp : posts req "calculate") by (split; reflexivity).
  split.
  - destruct (HB w req Sample.empty_server 10%float "Hummer 1-20" Hp) as (_ & H & _);
      [reflexivity | reflexivity | discriminate | discriminate | discriminate |].
    exact H.
  - destruct (HO w req Sample.empty_server 10%float false "Hummer 1-20" Hp) as (_ & H & _);
      [reflexivity | reflexivity | reflexivity | discriminate | discriminate | discriminate |].
    exact H.
Defined.

(** ** A failed save *)

(** C8, as stated, fails: after a [confirm] whose save fails, the session
    still holds [pending_breakdown] (and [pending_has_tolls]); only
    [pending_price] has been popped. *)
Lemma C8_failed_save_consumes_all_counterexample :
  ~ Claimed.failed_save_consumes_all Bookings.bookings /\
  ~ Claimed.failed_save_consumes_all Orders.orders.
Proof.
  set (w := Sample.world_of 10000 10000 false (Some Sample.db_down)).
  set (req := Sample.trip "confirm" "Sedan 1-5" []).
  split; intros H.
  - destruct (H w req Sample.priced_server 65%float Sample.db_down) as (_ & Hb & _);
      [split; reflexivity | reflexivity | reflexivity |].
    vm_compute in Hb. discriminate Hb.
  - destruct (H w req Sample.priced_server 65%float Sample.db_down) as (_ & Hb & _);
      [split; reflexivity | reflexivity | reflexivity |].
    vm_compute in Hb. discriminate Hb.
Qed.

(** C8, amended: when the save fails after a price was popped, the form is
    rendered again with "Could not save your booking: <text>", the table is
    unchanged and [pending_price] is gone, so that a retried [confirm]
    expires; [pending_breakdown] and [pending_has_tolls] stay in the session
    as they were.  When the save succeeds, the row is appended, the three
    pending keys are gone and the page shows the popped breakdown and toll
    flag, an empty dict and False when they were absent. *)
Theorem C8_failed_save_keeps_display_state :
  (forall w req st v e,
      posts req "confirm" ->
      session st !! "pending_price" = Some v -> v <> PNone ->
      create_error w (db st) (Bookings.new_order w (POST req) v) = Some e ->
      let st' := fst (Bookings.bookings w req st) in
      snd (Bookings.bookings w req st) =
        Ret (form_page "bookings/booking_form.html"
               ("Could not save your booking: " +:+ message e)
               (Bookings.form_data w (POST req))) /\
      db st' = db st /\
      session st' = delete "pending_price" (session st) /\
      session st' !! "pending_price" = None /\
      session st' !! "pending_breakdown" = session st !! "pending_breakdown" /\
      session st' !! "pending_has_tolls" = session st !! "pending_has_tolls" /\
      (forall w2 req2, posts req2 "confirm" ->
         Bookings.bookings w2 req2 st' =
           (st', Ret (form_page "bookings/booking_form.html"
                        "Your session expired. Please fill in the form again."
                        (Bookings.form_data w2 (POST req2)))))) /\
  (forall w req st v e,
      posts req "confirm" ->
      session st !! "pending_price" = Some v -> v <> PNone ->
      create_error w (db st) (Orders.new_order w (POST req) v) = Some e ->
      let st' := fst (Orders.orders w req st) in
      snd (Orders.orders w req st) =
        Ret (form_page "orders/booking_form.html"
               ("Could not save your booking: " +:+ message e)
               (Orders.form_data w (POST req))) /\
      db st' = db st /\
      session st' = delete "pending_price" (session st) /\
      session st' !! "pending_price" = None /\
      session st' !! "pending_breakdown" = session st !! "pending_breakdown" /\
      session st' !! "pending_has_tolls" = session st !! "pending_has_tolls" /\
      (forall w2 req2, posts req2 "confirm" ->
         Orders.orders w2 req2 st' =
           (st', Ret (form_page "orders/booking_form.html"
                        "Your session expired. Please recalculate the price."
                        (Orders.form_data w2 (POST req2)))))) /\
  (forall w req st v,
      posts req "confirm" ->
      session st !! "pending_price" = Some v -> v <> PNone ->
      create_error w (db st) (Bookings.new_order w (POST req) v) = None ->
      Bookings.bookings w req st =
        (Server (consumed (session st)) (db st ++ [Bookings.new_order w (POST req) v])%list,
         Ret (confirmed_page (Bookings.new_order w (POST req) v)
                (default (PDict []) (session st !! "pending_breakdown"))
                (default (PBool false) (session st !! "pending_has_tolls"))
                (post_in (POST req) "return_ride")))) /\
  (forall w req st v,
      posts req "confirm" ->
      session st !! "pending_price" = Some v -> v <> PNone ->
      create_error w (db st) (Orders.new_order w (POST req) v) = None ->
      Orders.orders w req st =
        (Server (consumed (session st)) (db st ++ [Orders.new_order w (POST req) v])%list,
         Ret (confirmed_page (Orders.new_order w (POST req) v)
                (default (PDict []) (session st !! "pending_breakdown"))
                (default (PBool false) (session st !! "pending_has_tolls"))
                (post_in (POST req) "return_ride")))).
Proof.
  split; [|split; [|split]].
  - intros w req st v e Hp Hs Hv He st'.
    assert (Hst : st' = Server (delete "pending_price" (session st)) (db st)).
    { subst st'. rewrite (bookings_confirm_priced w req st v Hp Hs Hv).
      unfold confirm_outcome. by rewrite He. }
    split.
    { rewrite (bookings_confirm_priced w req st v Hp Hs Hv).
      unfold confirm_outcome. by rewrite He. }
    assert (Hnone : session st' !! "pending_price" = None).
    { rewrite Hst. cbn [session]. apply lookup_delete_eq. }
    split; [by rewrite Hst|]. split; [by rewrite Hst|]. split; [exact Hnone|].
    split; [rewrite Hst; cbn [session]; by rewrite lookup_delete_ne|].
    split; [rewrite Hst; cbn [session]; by rewrite lookup_delete_ne|].
    intros w2 req2 Hp2. by apply bookings_confirm_expired.
  - intros w req st v e Hp Hs Hv He st'.
    assert (Hst : st' = Server (delete "pending_price" (session st)) (db st)).
    { subst st'. rewrite (orders_confirm_priced w req st v Hp Hs Hv).
      unfold confirm_outcome. by rewrite He. }
    split.
    { rewrite (orders_confirm_priced w req st v Hp Hs Hv).
      unfold confirm_outcome. by rewrite He. }
    assert (Hnone : session st' !! "pending_price" = None).
    { rewrite Hst. cbn [session]. apply lookup_delete_eq. }
    split; [by rewrite Hst|]. split; [by rewrite Hst|]. split; [exact Hnone|].
    split; [rewrite Hst; cbn [session]; by rewrite lookup_delete_ne|].
    split; [rewrite Hst; cbn [session]; by rewrite lookup_delete_ne|].
    intros w2 req2 Hp2. by apply orders_confirm_expired.
  - intros w req st v Hp Hs Hv He.
    rewrite (bookings_confirm_priced w req st v Hp Hs Hv).
    unfold confirm_outcome. by rewrite He.
  - intros w req st v Hp Hs Hv He.
    rewrite (orders_confirm_priced w req st v Hp Hs Hv).
    unfold confirm_outcome. by rewrite He.
Qed.

Lemma C8_failed_save_keeps_display_state_witness :
  let down := Sample.world_of 10000 10000 false (Some Sample.db_down) in
  let up := Sample.world_of 10000 10000 false None in
  let req := Sample.trip "confirm" "Sedan 1-5" [] in
  (let st' := fst (Bookings.bookings down req Sample.priced_server) in
   db st' = [] /\
   session st' !! "pending_breakdown" = Some (PDict [("base", PFloat 30)])) /\
  (let st' := fst (Orders.orders down req Sample.priced_server) in
   db st' = [] /\
   session st' !! "pending_breakdown" = Some (PDict [("base", PFloat 30)])) /\
  shown "has_tolls" (snd (Bookings.bookings up req (Server {["pending_price" := PFloat 65]} [])))
    = Some (CVal (PBool false)) /\
  shown "breakdown" (snd (Orders.orders up req (Server {["pending_price" := PFloat 65]} [])))
    = Some (CVal (PDict [])).
Proof.
  intros down up req.
  destruct C8_failed_save_keeps_display_state as (HB & HO & HBok & HOok).
  assert (Hp : posts req "confirm") by (split; reflexivity).
  split; [|split; [|split]].
  - intros st'.
    destruct (HB down req Sample.priced_server (PFloat 65) Sample.db_down Hp)
      as (_ & Hdb & _ & _ & Hbd & _); [reflexivity | discriminate | reflexivity |].
    split; [exact Hdb | exact Hbd].
  - intros st'.
    destruct (HO down req Sample.priced_server (PFloat 65) Sample.db_down Hp)
      as (_ & Hdb & _ & _ & Hbd & _); [reflexivity | discriminate | reflexivity |].
    split; [exact Hdb | exact Hbd].
  - rewrite (HBok up req (Server {["pending_price" := PFloat 65]} []) (PFloat 65) Hp);
      [reflexivity | reflexivity | discriminate | reflexivity].
  - rewrite (HOok up req (Server {["pending_price" := PFloat 65]} []) (PFloat 65) Hp);
      [reflexivity | reflexivity | discriminate | reflexivity].
Defined.

(** ** The two views side by side *)

Lemma same_fields (w : world) (post : gmap string string) (v : pyval) :
  Bookings.form_data w post = Orders.form_data w post /\
  Bookings.new_order w post v = Orders.new_order w post v.
Proof. split; reflexivity. Qed.

(** ** The pickup time *)

(** C10: when the submitted [pickup_time] is empty or missing, the row a
    [confirm] builds and persists has [pickup_time] set to 00:00; the
    submission is not rejected for it: with a pending price and a database
    that accepts the row, the row is appended and the confirmation page is
    rendered. *)
Theorem C10_empty_pickup_time_is_midnight :
  (forall w post v,
      post_get post "pickup_time" "" = "" ->
      pickup_time (Bookings.new_order w post v) = PTime 0 0 /\
      pickup_time (Orders.new_order w post v) = PTime 0 0) /\
  (forall w req st r,
      post_get (POST req) "pickup_time" "" = "" ->
      (persisted st (fst (Bookings.bookings w req st)) r -> pickup_time r = PTime 0 0) /\
      (persisted st (fst (Orders.orders w req st)) r -> pickup_time r = PTime 0 0)) /\
  (forall w req st v,
      post_get (POST req) "pickup_time" "" = "" ->
      posts req "confirm" ->
      session st !! "pending_price" = Some v -> v <> PNone ->
      (create_error w (db st) (Bookings.new_order w (POST req) v) = None ->
       exists r, persisted st (fst (Bookings.bookings w req st)) r /\
                 pickup_time r = PTime 0 0 /\
                 rendered (snd (Bookings.bookings w req st))
                   = Some "orders/booking_confirmed.html") /\
      (create_error w (db st) (Orders.new_order w (POST req) v) = None ->
       exists r, persisted st (fst (Orders.orders w req st)) r /\
                 pickup_time r = PTime 0 0 /\
                 rendered (snd (Orders.orders w req st))
                   = Some "orders/booking_confirmed.html")).
Proof.
  assert (Hrow : forall w post v,
             post_get post "pickup_time" "" = "" ->
             pickup_time (Bookings.new_order w post v) = PTime 0 0 /\
             pickup_time (Orders.new_order w post v) = PTime 0 0).
  { intros w post v Ht.
    unfold Bookings.new_order, Orders.new_order. cbv zeta. cbn [pickup_time].
    change (dict_item (Bookings.form_data w post) "pickup_time")
      with (PStr (post_get post "pickup_time" "")).
    change (dict_item (Orders.form_data w post) "pickup_time")
      with (PStr (post_get post "pickup_time" "")).
    rewrite Ht. split; reflexivity. }
  split; [exact Hrow|]. split.
  - intros w req st r Ht. split; intros H.
    + destruct (bookings_persisted w req st r H) as (v & _ & _ & _ & ->).
      by apply Hrow.
    + destruct (orders_persisted w req st r H) as (v & _ & _ & _ & ->).
      by apply Hrow.
  - intros w req st v Ht Hp Hs Hv. split; intros He.
    + exists (Bookings.new_order w (POST req) v).
      rewrite (bookings_confirm_priced w req st v Hp Hs Hv).
      unfold confirm_outcome. rewrite He. cbn [fst snd].
      split; [reflexivity|]. split; [by apply Hrow | reflexivity].
    + exists (Orders.new_order w (POST req) v).
      rewrite (orders_confirm_priced w req st v Hp Hs Hv).
      unfold confirm_outcome. rewrite He. cbn [fst snd].
      split; [reflexivity|]. split; [by apply Hrow | reflexivity].
Qed.

Lemma C10_empty_pickup_time_is_midnight_witness :
  let w := Sample.world_of 10000 10000 false None in
  let req := Sample.trip "confirm" "Sedan 1-5" [("pickup_time", "")] in
  (exists r, db (fst (Bookings.bookings w req Sample.priced_server)) = [r] /\
             pickup_time r = PTime 0 0) /\
  (exists r, db (fst (Orders.orders w req Sample.priced_server)) = [r] /\
             pickup_time r = PTime 0 0).
Proof.
  intros w req.
  destruct C10_empty_pickup_time_is_midnight as (_ & _ & H).
  destruct (H w req Sample.priced_server (PFloat 65)) as (HB & HO);
    [reflexivity | split; reflexivity | reflexivity | discriminate |].
  split.
  - destruct (HB eq_refl) as (r & Hr & Ht & _). exists r. split; [exact Hr | exact Ht].
  - destruct (HO eq_refl) as (r & Hr & Ht & _). exists r. split; [exact Hr | exact Ht].
Defined.

(** ** Further properties: the route resolver of [bookings] *)

Lemma geocode_ret (w : world) (a : string) (p : float * float) :
  Bookings.geocode w a = Ret p <-> exists rest, nominatim w a = Ret (p :: rest).
Proof.
  unfold Bookings.geocode. destruct (nominatim w a) as [[|hit hits]|e]; simpl; split.
  - discriminate.
  - intros [rest H]. discriminate.
  - intros [= ->]. eauto.
  - intros [rest [= -> _]]. reflexivity.
  - discriminate.
  - intros [rest H]. discriminate.
Qed.

Lemma code_is_ok (c : option string) :
  negb (opt_val c =? PStr "Ok")%py = false <-> c = Some "Ok".
Proof.
  destruct c as [s|]; simpl; [|split; discriminate].
  rewrite negb_false_iff, String.eqb_eq. split; congruence.
Qed.

Lemma truthy_opt_val (wp : option string) :
  py_truthy (opt_val wp) = true <-> exists a, wp = Some a /\ a <> "".
Proof.
  destruct wp as [a|]; simpl.
  - rewrite negb_true_iff, String.eqb_neq. split; [eauto|].
    intros (b & [= ->] & H). exact H.
  - split; [discriminate|]. intros (a & H & _). discriminate.
Qed.

(** X1: [get_route] returns a distance exactly when Nominatim has a hit for
    the origin, for the destination and for the waypoint if one is given,
    and OSRM, asked for the first hits in the order origin, waypoint,
    destination, answers Ok with at least one route; the distance is that of
    the first route, divided by 1000 and rounded to 2 decimals. *)
Theorem X1_get_route_returns :
  forall w o d wp x,
    Bookings.get_route w o d wp = Ret x <->
    exists po ro pd rd coords body m rest,
      nominatim w o = Ret (po :: ro) /\
      nominatim w d = Ret (pd :: rd) /\
      ((py_truthy (opt_val wp) = false /\ coords = [po; pd]) \/
       (exists a pw rw, wp = Some a /\ a <> "" /\
                        nominatim w a = Ret (pw :: rw) /\ coords = [po; pw; pd])) /\
      osrm w coords = Ret body /\
      code body = Some "Ok" /\
      routes body = m :: rest /\
      x = py_round (m / 1000)%float 2.
Proof.
  intros w o d wp x. split.
  - unfold Bookings.get_route.
    destruct (Bookings.geocode w o) as [po|e1] eqn:E1; simpl; [|discriminate].
    destruct (Bookings.geocode w d) as [pd|e2] eqn:E2; simpl; [|discriminate].
    apply geocode_ret in E1 as [ro E1]. apply geocode_ret in E2 as [rd E2].
    destruct (py_truthy (opt_val wp)) eqn:Ewp.
    + destruct (Bookings.geocode w (default "" wp)) as [pw|e3] eqn:E3; simpl; [|discriminate].
      apply truthy_opt_val in Ewp as (a & -> & Ha). simpl in E3.
      apply geocode_ret in E3 as [rw E3].
      destruct (osrm w [po; pw; pd]) as [body|e4] eqn:E4; simpl; [|discriminate].
      destruct (negb _) eqn:Ec; [discriminate|]. apply code_is_ok in Ec.
      destruct (routes body) as [|m rest] eqn:Er; [discriminate|].
      intros [= <-].
      exists po, ro, pd, rd, [po; pw; pd], body, m, rest.
      repeat (split; [first [assumption | reflexivity | idtac]|]); [|reflexivity].
      right. exists a, pw, rw. auto.
    + simpl.
      destruct (osrm w [po; pd]) as [body|e4] eqn:E4; simpl; [|discriminate].
      destruct (negb _) eqn:Ec; [discriminate|]. apply code_is_ok in Ec.
      destruct (routes body) as [|m rest] eqn:Er; [discriminate|].
      intros [= <-].
      exists po, ro, pd, rd, [po; pd], body, m, rest.
      repeat (split; [first [assumption | reflexivity | idtac]|]); [|reflexivity].
      left. auto.
  - intros (po & ro & pd & rd & coords & body & m & rest
            & Ho & Hd & Hwp & Hosrm & Hcode & Hroutes & ->).
    unfold Bookings.get_route, Bookings.geocode. rewrite Ho, Hd. simpl bind.
    apply code_is_ok in Hcode.
    destruct Hwp as [[Hf ->]|(a & pw & rw & -> & Ha & Hw & ->)].
    + cbv beta. rewrite Hf. simpl. rewrite Hosrm. simpl. by rewrite Hcode, Hroutes.
    + assert (Ht : py_truthy (opt_val (Some a)) = true).
      { apply truthy_opt_val. eauto. }
      cbv beta. rewrite Ht. simpl. rewrite Hw. simpl. rewrite Hosrm. simpl.
      by rewrite Hcode, Hroutes.
Qed.

(** X2: the failures of [get_route] come in the order of its calls.  With
    the origin found, a destination without a hit raises "Address not found:
    <destination>" whatever the waypoint and OSRM would give; with both
    found, a waypoint without a hit raises "Address not found: <waypoint>";
    with all addresses found, an OSRM status other than Ok raises the
    no-route [ValueError], and an Ok answer without routes raises an
    [IndexError]. *)
Theorem X2_get_route_failures_in_call_order :
  forall w o d wp po ro,
    nominatim w o = Ret (po :: ro) ->
    (nominatim w d = Ret [] ->
     Bookings.get_route w o d wp = Exc (ValueError ("Address not found: " +:+ d))) /\
    (forall pd rd a,
        nominatim w d = Ret (pd :: rd) ->
        wp = Some a -> a <> "" ->
        (nominatim w a = Ret [] ->
         Bookings.get_route w o d wp = Exc (ValueError ("Address not found: " +:+ a))) /\
        (forall pw rw body,
            nominatim w a = Ret (pw :: rw) ->
            osrm w [po; pw; pd] = Ret body ->
            (code body <> Some "Ok" ->
             Bookings.get_route w o d wp =
               Exc (ValueError "OSRM could not calculate a route for the given addresses.")) /\
            (code body = Some "Ok" -> routes body = [] ->
             Bookings.get_route w o d wp = Exc (IndexError "list index out of range")))) /\
    (forall pd rd body,
        nominatim w d = Ret (pd :: rd) ->
        py_truthy (opt_val wp) = false ->
        osrm w [po; pd] = Ret body ->
        (code body <> Some "Ok" ->
         Bookings.get_route w o d wp =
           Exc (ValueError "OSRM could not calculate a route for the given addresses.")) /\
        (code body = Some "Ok" -> routes body = [] ->
         Bookings.get_route w o d wp = Exc (IndexError "list index out of range"))).
Proof.
  intros w o d wp po ro Ho.
  assert (Hbad : forall c, c <> Some "Ok" -> negb (opt_val c =? PStr "Ok")%py = true).
  { intros c Hc. destruct (negb _) eqn:E; [reflexivity|].
    apply code_is_ok in E. contradiction. }
  split; [|split].
  - intros Hd. unfold Bookings.get_route, Bookings.geocode. by rewrite Ho, Hd.
  - intros pd rd a Hd -> Ha.
    assert (Ht : py_truthy (opt_val (Some a)) = true) by (apply truthy_opt_val; eauto).
    simpl in Ht. split.
    + intros Hw. unfold Bookings.get_route, Bookings.geocode.
      rewrite Ho, Hd. simpl bind. cbv beta. rewrite Ht. simpl. by rewrite Hw.
    + intros pw rw body Hw Hosrm. split.
      * intros Hc. unfold Bookings.get_route, Bookings.geocode.
        rewrite Ho, Hd. simpl bind. cbv beta. rewrite Ht. simpl. rewrite Hw. simpl.
        rewrite Hosrm. simpl. by rewrite (Hbad _ Hc).
      * intros Hc Hr. unfold Bookings.get_route, Bookings.geocode.
        rewrite Ho, Hd. simpl bind. cbv beta. rewrite Ht. simpl. rewrite Hw. simpl.
        rewrite Hosrm. simpl. apply code_is_ok in Hc. by rewrite Hc, Hr.
  - intros pd rd body Hd Hf Hosrm. split.
    + intros Hc. unfold Bookings.get_route, Bookings.geocode.
      rewrite Ho, Hd. simpl bind. cbv beta. rewrite Hf. simpl. rewrite Hosrm. simpl.
      by rewrite (Hbad _ Hc).
    + intros Hc Hr. unfold Bookings.get_route, Bookings.geocode.
      rewrite Ho, Hd. simpl bind. cbv beta. rewrite Hf. simpl. rewrite Hosrm. simpl.
      apply code_is_ok in Hc. by rewrite Hc, Hr.
Qed.

Lemma X2_get_route_failures_in_call_order_witness :
  Bookings.get_route (Sample.world_of 10000 10000 false None)
      "1 Collins St" "Nowhere" (Some "Nowhere")
    = Exc (ValueError "Address not found: Nowhere") /\
  Bookings.get_route world_without_routes "1 Collins St" "Melbourne Airport" None
    = Exc (IndexError "list index out of range").
Proof.
  split.
  - destruct (X2_get_route_failures_in_call_order
                (Sample.world_of 10000 10000 false None)
                "1 Collins St" "Nowhere" (Some "Nowhere") Sample.melbourne [] eq_refl)
      as (H & _).
    apply H. reflexivity.
  - destruct (X2_get_route_failures_in_call_order world_without_routes
                "1 Collins St" "Melbourne Airport" None Sample.melbourne [] eq_refl)
      as (_ & _ & H).
    destruct (H Sample.melbourne [] (OsrmBody (Some "Ok") []) eq_refl eq_refl eq_refl)
      as (_ & H2).
    apply H2; reflexivity.
Defined.

Lemma X1_get_route_returns_witness :
  Bookings.get_route (Sample.world_of 12345 12345 false None)
      "1 Collins St" "Melbourne Airport" (Some "Southbank")
    = Ret (py_round (12345 / 1000)%float 2).
Proof.
  apply X1_get_route_returns.
  exists Sample.melbourne, [], Sample.melbourne, [],
         [Sample.melbourne; Sample.melbourne; Sample.melbourne],
         (OsrmBody (Some "Ok") [12345%float]), 12345%float, [].
  split; [reflexivity|]. split; [reflexivity|]. split.
  - right. exists "Southbank", Sample.melbourne, []. repeat split. discriminate.
  - repeat split.
Defined.

(** ** Further properties: trimming *)

Lemma app_cons (c : ascii) (a b : string) : String c a +:+ b = String c (a +:+ b).
Proof. reflexivity. Qed.

Lemma app_empty_l (b : string) : "" +:+ b = b.
Proof. reflexivity. Qed.

Lemma app_assoc_r (a b c : string) : (a +:+ b) +:+ c = a +:+ b +:+ c.
Proof.
  induction a as [|x a IH]; [reflexivity|]. rewrite !app_cons. by rewrite IH.
Qed.

Lemma app_length (a b : string) :
  String.length (a +:+ b) = (String.length a + String.length b)%nat.
Proof.
  induction a as [|x a IH]; [reflexivity|].
  rewrite app_cons. cbn [String.length]. by rewrite IH.
Qed.

Lemma drop_prefix_spec (p s r : string) : drop_prefix p s = Some r <-> s = p +:+ r.
Proof.
  revert s. induction p as [|a p IH]; intros s; cbn [drop_prefix];
    rewrite ?app_cons, ?app_empty_l.
  - split; congruence.
  - destruct s as [|b s]; [split; discriminate|].
    destruct (Ascii.eqb_spec a b) as [->|Hne].
    + rewrite IH. split; congruence.
    + split; [discriminate|]. intros [= -> _]. contradiction.
Qed.

Lemma drop_first_some (ws : list string) (s r : string) :
  drop_first ws s = Some r -> exists w, In w ws /\ s = w +:+ r.
Proof.
  induction ws as [|w ws IH]; cbn [drop_first]; [discriminate|].
  destruct (drop_prefix w s) as [r'|] eqn:E.
  - intros [= ->]. apply drop_prefix_spec in E. exists w. split; [by left | exact E].
  - intros H. destruct (IH H) as (w' & Hin & Hs). exists w'. split; [by right | exact Hs].
Qed.

Lemma skip_space_some (s r : string) :
  skip_space s = Some r -> exists w, In w py_whitespace /\ s = w +:+ r.
Proof. apply drop_first_some. Qed.

Lemma whitespace_nonempty (w : string) : In w py_whitespace -> w <> "".
Proof.
  intros Hin. vm_compute in Hin.
  repeat (destruct Hin as [<-|Hin]; [discriminate|]). contradiction.
Qed.

(** No whitespace character is encoded by the beginning of another, so a
    string that begins with one loses exactly that one. *)
Lemma skip_space_app (w r : string) : In w py_whitespace -> skip_space (w +:+ r) = Some r.
Proof.
  intros Hin. vm_compute in Hin.
  repeat (destruct Hin as [<-|Hin]; [reflexivity|]). contradiction.
Qed.

Lemma skip_space_shorter (s r : string) :
  skip_space s = Some r -> (String.length r < String.length s)%nat.
Proof.
  intros (w & Hin & ->)%skip_space_some. rewrite app_length.
  apply whitespace_nonempty in Hin. destruct w; [contradiction|].
  cbn [String.length]. lia.
Qed.

Lemma lstrip_from_any (n m : nat) (s : string) :
  (String.length s <= n)%nat -> (String.length s <= m)%nat ->
  lstrip_from n s = lstrip_from m s.
Proof.
  revert m s. induction n as [|n IH]; intros m s Hn Hm.
  - destruct s; [|cbn [String.length] in Hn; lia]. by destruct m.
  - destruct m as [|m].
    + destruct s; [reflexivity | cbn [String.length] in Hm; lia].
    + cbn [lstrip_from]. destruct (skip_space s) as [r|] eqn:E; [|reflexivity].
      apply skip_space_shorter in E. apply IH; lia.
Qed.

Lemma lstrip_step (s : string) :
  lstrip s = match skip_space s with Some r => lstrip r | None => s end.
Proof.
  unfold lstrip. destruct s as [|c s]; [reflexivity|].
  cbn [String.length lstrip_from].
  destruct (skip_space (String c s)) as [r|] eqn:E; [|reflexivity].
  apply skip_space_shorter in E. cbn [String.length] in E. apply lstrip_from_any; lia.
Qed.

(** Induction along the characters [lstrip] removes. *)
Lemma lstrip_ind (P : string -> Prop) :
  (forall s, (forall r, skip_space s = Some r -> P r) -> P s) -> forall s, P s.
Proof.
  intros Hstep s. remember (String.length s) as n eqn:Hn.
  revert s Hn. induction n as [n IH] using lt_wf_ind. intros s ->.
  apply Hstep. intros r Hr. apply (IH (String.length r)); [|reflexivity].
  by apply skip_space_shorter.
Qed.

Lemma lstrip_no_lead (s : string) : skip_space (lstrip s) = None.
Proof.
  induction s as [s IH] using lstrip_ind. rewrite lstrip_step.
  destruct (skip_space s) as [r|] eqn:E; [by apply IH | exact E].
Qed.

Lemma lstrip_idempotent (s : string) : lstrip (lstrip s) = lstrip s.
Proof. rewrite (lstrip_step (lstrip s)). by rewrite lstrip_no_lead. Qed.

Lemma all_space_blank (s : string) : all_space s = true <-> blank s.
Proof.
  unfold all_space. rewrite String.eqb_eq. split.
  - induction s as [s IH] using lstrip_ind. rewrite lstrip_step.
    destruct (skip_space s) as [r|] eqn:E.
    + intros H. destruct (IH r eq_refl H) as (ws & Hws & ->).
      apply skip_space_some in E as (w & Hw & ->).
      exists (w :: ws). split; [by constructor | reflexivity].
    + intros ->. exists []. split; [constructor | reflexivity].
  - intros (ws & Hws & ->). induction Hws as [|w ws Hw Hws IH]; [reflexivity|].
    cbn [fold_right]. rewrite lstrip_step, (skip_space_app _ _ Hw). exact IH.
Qed.

Lemma all_space_app (w t : string) :
  In w py_whitespace -> all_space t = true -> all_space (w +:+ t) = true.
Proof.
  unfold all_space. intros Hw Ht. by rewrite lstrip_step, (skip_space_app _ _ Hw).
Qed.

Lemma rstrip_split (s : string) :
  exists tail, s = rstrip s +:+ tail /\ all_space tail = true.
Proof.
  induction s as [|c s IH]; [by exists ""|]. cbn [rstrip].
  destruct (all_space (String c s)) eqn:E.
  - exists (String c s). by split.
  - destruct IH as (tail & Hs & Ht). exists tail. split; [|exact Ht].
    rewrite app_cons. by rewrite <- Hs.
Qed.

Lemma rstrip_minimal (s front back : string) :
  s = front +:+ back -> all_space back = true -> exists x, front = rstrip s +:+ x.
Proof.
  revert front. induction s as [|c s IH]; intros front Hs Hb; [by exists front|].
  cbn [rstrip]. destruct (all_space (String c s)) eqn:E; [by exists front|].
  destruct front as [|c' front].
  - rewrite app_empty_l in Hs. subst back. congruence.
  - rewrite app_cons in Hs. injection Hs as <- Hs.
    destruct (IH front Hs Hb) as (x & ->). by exists x.
Qed.

Lemma rstrip_empty (s : string) : rstrip s = "" <-> all_space s = true.
Proof.
  destruct s as [|c s]; [by split|]. cbn [rstrip].
  destruct (all_space (String c s)); split; congruence.
Qed.

Lemma rstrip_no_trail (s : string) : ~ ends_space (rstrip s).
Proof.
  intros (front & w & Hw & E).
  destruct (rstrip_split s) as (tail & Hs & Ht).
  rewrite E, app_assoc_r in Hs.
  destruct (rstrip_minimal s front (w +:+ tail) Hs (all_space_app w tail Hw Ht)) as (x & Hx).
  rewrite E, app_assoc_r in Hx. apply (f_equal String.length) in Hx.
  rewrite !app_length in Hx. apply whitespace_nonempty in Hw.
  destruct w; [contradiction|]. cbn [String.length] in Hx. lia.
Qed.

Lemma strip_trimmed (s : string) : ~ starts_space (strip s) /\ ~ ends_space (strip s).
Proof.
  unfold strip. split; [|apply rstrip_no_trail].
  intros (w & rest & Hw & E).
  destruct (rstrip_split (lstrip s)) as (tail & Hs & _).
  rewrite E, app_assoc_r in Hs.
  pose proof (lstrip_no_lead s) as Hl.
  rewrite Hs, (skip_space_app _ _ Hw) in Hl. discriminate.
Qed.

Lemma strip_blank (s : string) : strip s = "" <-> blank s.
Proof.
  rewrite <- all_space_blank. unfold strip. rewrite rstrip_empty.
  unfold all_space. by rewrite lstrip_idempotent.
Qed.

(** ** Further properties: what the views read of a submission *)

Ltac in_keys := simpl; repeat (first [left; reflexivity | right]).

(** Replace every lookup in [p] by the lookup in the submission it agrees
    with. *)
Ltac read_through H p :=
  repeat match goal with
         | |- context [p !! ?k] => rewrite (H k) by (solve [in_keys | discriminate])
         end.

Lemma bookings_new_order_reads (w : world) (p q : gmap string string) (v : pyval) :
  Bookings.pickup p = Bookings.pickup q ->
  Bookings.destination p = Bookings.destination q ->
  Bookings.extra_stop p = Bookings.extra_stop q ->
  Bookings.service_type p = Bookings.service_type q ->
  Bookings.has_baby_seat p = Bookings.has_baby_seat q ->
  Bookings.is_return_ride p = Bookings.is_return_ride q ->
  Bookings.form_data w p = Bookings.form_data w q ->
  Bookings.new_order w p v = Bookings.new_order w q v.
Proof.
  intros H1 H2 H3 H4 H5 H6 H7. unfold Bookings.new_order. cbv zeta.
  by rewrite H1, H2, H3, H4, H5, H6, H7.
Qed.

Lemma orders_new_order_reads (w : world) (p q : gmap string string) (v : pyval) :
  Orders.pickup p = Orders.pickup q ->
  Orders.destination p = Orders.destination q ->
  Orders.extra_stop p = Orders.extra_stop q ->
  Orders.service_type p = Orders.service_type q ->
  Orders.has_baby_seat p = Orders.has_baby_seat q ->
  Orders.is_return_ride p = Orders.is_return_ride q ->
  Orders.form_data w p = Orders.form_data w q ->
  Orders.new_order w p v = Orders.new_order w q v.
Proof.
  intros H1 H2 H3 H4 H5 H6 H7. unfold Orders.new_order. cbv zeta.
  by rewrite H1, H2, H3, H4, H5, H6, H7.
Qed.

(** [bookings] reads a submission through its action, its [has_tolls] box,
    its extra stop and the lookups of the other fields. *)
Lemma bookings_same_reading (w : world) (m : string) (p q : gmap string string) (st : server) :
  post_get p "action" "calculate" = post_get q "action" "calculate" ->
  post_in p "has_tolls" = post_in q "has_tolls" ->
  Bookings.extra_stop p = Bookings.extra_stop q ->
  (forall k, In k field_keys -> k <> "additional_stop" -> p !! k = q !! k) ->
  Bookings.bookings w (Request m p) st = Bookings.bookings w (Request m q) st.
Proof.
  intros Ha Ht Hs H.
  assert (H1 : Bookings.pickup p = Bookings.pickup q).
  { unfold Bookings.pickup, post_get. by read_through H p. }
  assert (H2 : Bookings.destination p = Bookings.destination q).
  { unfold Bookings.destination, post_get. by read_through H p. }
  assert (H4 : Bookings.service_type p = Bookings.service_type q).
  { unfold Bookings.service_type, post_get. by read_through H p. }
  assert (H5 : Bookings.has_baby_seat p = Bookings.has_baby_seat q).
  { unfold Bookings.has_baby_seat, post_in. by read_through H p. }
  assert (H6 : Bookings.is_return_ride p = Bookings.is_return_ride q).
  { unfold Bookings.is_return_ride, post_in. by read_through H p. }
  assert (H7 : Bookings.form_data w p = Bookings.form_data w q).
  { unfold Bookings.form_data. rewrite H1, H2, Hs, H4, H5, H6.
    unfold post_get, post_get_val. by read_through H p. }
  unfold Bookings.bookings. cbn [POST method]. cbv zeta.
  rewrite Ha, Ht, H1, H2, Hs, H4, H5, H6, H7.
  destruct (String.eqb m "POST"); [|reflexivity].
  destruct (String.eqb _ "calculate"); [reflexivity|].
  destruct (String.eqb _ "confirm"); [|reflexivity].
  destruct (session_pop "pending_price" PNone (session st)) as [fp s1].
  destruct fp; try reflexivity;
    rewrite (bookings_new_order_reads w p q _ H1 H2 Hs H4 H5 H6 H7); reflexivity.
Qed.

Lemma orders_same_reading (w : world) (m : string) (p q : gmap string string) (st : server) :
  post_get p "action" "calculate" = post_get q "action" "calculate" ->
  Orders.extra_stop p = Orders.extra_stop q ->
  (forall k, In k field_keys -> k <> "additional_stop" -> p !! k = q !! k) ->
  Orders.orders w (Request m p) st = Orders.orders w (Request m q) st.
Proof.
  intros Ha Hs H.
  assert (H1 : Orders.pickup p = Orders.pickup q).
  { unfold Orders.pickup, post_get. by read_through H p. }
  assert (H2 : Orders.destination p = Orders.destination q).
  { unfold Orders.destination, post_get. by read_through H p. }
  assert (H4 : Orders.service_type p = Orders.service_type q).
  { unfold Orders.service_type, post_get. by read_through H p. }
  assert (H5 : Orders.has_baby_seat p = Orders.has_baby_seat q).
  { unfold Orders.has_baby_seat, post_in. by read_through H p. }
  assert (H6 : Orders.is_return_ride p = Orders.is_return_ride q).
  { unfold Orders.is_return_ride, post_in. by read_through H p. }
  assert (H7 : Orders.form_data w p = Orders.form_data w q).
  { unfold Orders.form_data. rewrite H1, H2, Hs, H4, H5, H6.
    unfold post_get, post_get_val. by read_through H p. }
  unfold Orders.orders. cbn [POST method]. cbv zeta.
  rewrite Ha, H1, H2, Hs, H4, H5, H6, H7.
  destruct (String.eqb m "POST"); [|reflexivity].
  destruct (String.eqb _ "calculate"); [reflexivity|].
  destruct (String.eqb _ "confirm"); [|reflexivity].
  destruct (session_pop "pending_price" PNone (session st)) as [fp s1].
  destruct fp; try reflexivity;
    rewrite (orders_new_order_reads w p q _ H1 H2 Hs H4 H5 H6 H7); reflexivity.
Qed.

(** X3: the outcome of a request depends on the submission only through the
    keys the view reads: [action], the twenty-one booking fields and, in
    [bookings] only, [has_tolls].  Two submissions that agree on these keys
    get the same response and leave the same session and table; so no other
    submitted key has any effect, and [orders] ignores a [has_tolls] box. *)
Theorem X3_views_read_only_their_fields :
  (forall w m p q st,
      agree_on ("action" :: "has_tolls" :: field_keys) p q ->
      Bookings.bookings w (Request m p) st = Bookings.bookings w (Request m q) st) /\
  (forall w m p q st,
      agree_on ("action" :: field_keys) p q ->
      Orders.orders w (Request m p) st = Orders.orders w (Request m q) st).
Proof.
  split.
  - intros w m p q st H. apply bookings_same_reading.
    + unfold post_get. rewrite (H "action") by in_keys. reflexivity.
    + unfold post_in. rewrite (H "has_tolls") by in_keys. reflexivity.
    + unfold Bookings.extra_stop, post_get.
      rewrite (H "additional_stop") by in_keys. reflexivity.
    + intros k Hin _. apply H. right. right. exact Hin.
  - intros w m p q st H. apply orders_same_reading.
    + unfold post_get. rewrite (H "action") by in_keys. reflexivity.
    + unfold Orders.extra_stop, post_get.
      rewrite (H "additional_stop") by in_keys. reflexivity.
    + intros k Hin _. apply H. right. exact Hin.
Qed.

Lemma X3_views_read_only_their_fields_witness :
  let w := Sample.world_of 10000 10000 false None in
  let p := POST (Sample.trip "confirm" "Sedan 1-5" []) in
  Bookings.bookings w (Request "POST" p) Sample.priced_server
    = Bookings.bookings w (Request "POST" (<["final_price" := "0.01"]> p)) Sample.priced_server /\
  Orders.orders w (Request "POST" p) Sample.empty_server
    = Orders.orders w (Request "POST" (<["has_tolls" := "on"]> p)) Sample.empty_server.
Proof.
  intros w p.
  destruct X3_views_read_only_their_fields as (HB & HO).
  split.
  - apply HB. intros k Hin. simpl in Hin.
    repeat (destruct Hin as [<-|Hin]; [reflexivity|]). contradiction.
  - apply HO. intros k Hin. simpl in Hin.
    repeat (destruct Hin as [<-|Hin]; [reflexivity|]). contradiction.
Defined.

Lemma field_key_is_not_action (k : string) : In k field_keys -> k <> "action".
Proof.
  intros Hin ->. simpl in Hin.
  repeat (destruct Hin as [Hin|Hin]; [discriminate Hin|]). contradiction.
Qed.

Lemma field_key_is_not_has_tolls (k : string) : In k field_keys -> k <> "has_tolls".
Proof.
  intros Hin ->. simpl in Hin.
  repeat (destruct Hin as [Hin|Hin]; [discriminate Hin|]). contradiction.
Qed.

(** X4: a POST without an [action] field is handled as [action=calculate]:
    its outcome is that of the same submission with [action] set to
    "calculate". *)
Theorem X4_missing_action_is_calculate :
  forall w m (p : gmap string string) st,
    p !! "action" = None ->
    Bookings.bookings w (Request m p) st
      = Bookings.bookings w (Request m (<["action" := "calculate"]> p)) st /\
    Orders.orders w (Request m p) st
      = Orders.orders w (Request m (<["action" := "calculate"]> p)) st.
Proof.
  intros w m p st Hp.
  assert (Ha : post_get p "action" "calculate"
               = post_get (<["action" := "calculate"]> p) "action" "calculate").
  { unfold post_get. by rewrite Hp, lookup_insert_eq. }
  assert (Hs : Bookings.extra_stop p = Bookings.extra_stop (<["action" := "calculate"]> p)).
  { unfold Bookings.extra_stop, post_get. by rewrite lookup_insert_ne. }
  assert (Hk : forall k, In k field_keys -> k <> "additional_stop" ->
                         p !! k = <["action" := "calculate"]> p !! k).
  { intros k Hin _. rewrite lookup_insert_ne; [reflexivity|].
    intros E. by apply (field_key_is_not_action k). }
  split.
  - apply bookings_same_reading; auto.
    unfold post_in. by rewrite lookup_insert_ne.
  - apply orders_same_reading; auto.
Qed.

Lemma X4_missing_action_is_calculate_witness :
  let w := Sample.world_of 10000 10000 false None in
  let p := Sample.post_of [("pickup_address", "1 Collins St");
                           ("destination_address", "Melbourne Airport")] in
  session (fst (Bookings.bookings w (Request "POST" p) Sample.empty_server)) !! "pending_price"
    = Some (PFloat 65) /\
  session (fst (Orders.orders w (Request "POST" p) Sample.empty_server)) !! "pending_price"
    = Some (PFloat 65).
Proof.
  intros w p.
  destruct (X4_missing_action_is_calculate w "POST" p Sample.empty_server eq_refl)
    as (HB & HO).
  rewrite HB, HO. split; reflexivity.
Defined.

(** X5: an [additional_stop] made of whitespace only is no stop at all:
    [extra_stop] is [None] exactly when the field is missing, empty or a
    sequence of whitespace characters (those of [str.isspace], the
    NO-BREAK SPACE and the other Unicode blanks included), and then the
    outcome of the request is that of the same submission without the field
    (no waypoint is resolved, no stop fee is charged, the row stores no
    stop). *)
Theorem X5_blank_stop_is_no_stop :
  (forall p : gmap string string,
      (Bookings.extra_stop p = None <-> blank (post_get p "additional_stop" "")) /\
      (Orders.extra_stop p = None <-> blank (post_get p "additional_stop" ""))) /\
  (forall w m (p : gmap string string) s st,
      p !! "additional_stop" = Some s ->
      blank s ->
      Bookings.bookings w (Request m p) st
        = Bookings.bookings w (Request m (delete "additional_stop" p)) st /\
      Orders.orders w (Request m p) st
        = Orders.orders w (Request m (delete "additional_stop" p)) st).
Proof.
  assert (Hnone : forall s, str_or_none (strip s) = None <-> blank s).
  { intros s. rewrite <- strip_blank. unfold str_or_none. simpl.
    destruct (String.eqb_spec (strip s) ""); simpl; split; congruence. }
  split.
  - intros p. split; apply Hnone.
  - intros w m p s st Hp Hs.
    assert (He : str_or_none (strip (post_get p "additional_stop" ""))
                 = str_or_none (strip (post_get (delete "additional_stop" p) "additional_stop" ""))).
    { unfold post_get. rewrite Hp, lookup_delete_eq.
      apply Hnone in Hs. rewrite Hs. reflexivity. }
    assert (Hk : forall k, In k field_keys -> k <> "additional_stop" ->
                           p !! k = delete "additional_stop" p !! k).
    { intros k _ Hne. by rewrite lookup_delete_ne. }
    split.
    + apply bookings_same_reading; auto.
      * unfold post_get. by rewrite lookup_delete_ne.
      * unfold post_in. by rewrite lookup_delete_ne.
    + apply orders_same_reading; auto.
      unfold post_get. by rewrite lookup_delete_ne.
Qed.

Lemma X5_blank_stop_is_no_stop_witness :
  let w := Sample.world_of 10000 10000 false None in
  let stop := " " +:+ nbsp +:+ wide_space in
  let req := Sample.trip "calculate" "Sedan 1-5" [("additional_stop", stop)] in
  session (fst (Bookings.bookings w req Sample.empty_server)) !! "pending_price"
    = Some (PFloat 65) /\
  session_dict_entry (fst (Orders.orders w req Sample.empty_server))
      "pending_breakdown" "stop_cost" = Some (PInt 0).
Proof.
  intros w stop req.
  destruct X5_blank_stop_is_no_stop as (_ & H).
  assert (Hb : blank stop).
  { exists [" "; nbsp; wide_space]. split; [|reflexivity].
    repeat (constructor; [vm_compute; repeat (first [left; reflexivity | right])|]).
    constructor. }
  destruct (H w "POST" (POST req) stop Sample.empty_server eq_refl Hb) as (HB & HO).
  change req with (Request "POST" (POST req)).
  rewrite HB, HO. split; reflexivity.
Defined.

(** X6: the addresses of a persisted row are trimmed: [pickup_address] and
    [destination_address] neither begin nor end with a whitespace character
    (of [str.isspace], the Unicode blanks included), and [additional_stop] is
    either [None] or a non-empty string that neither begins nor ends with
    one. *)
Theorem X6_persisted_addresses_are_trimmed :
  forall w req st r,
    persisted st (fst (Bookings.bookings w req st)) r \/
    persisted st (fst (Orders.orders w req st)) r ->
    ~ starts_space (pickup_address r) /\
    ~ ends_space (pickup_address r) /\
    ~ starts_space (destination_address r) /\
    ~ ends_space (destination_address r) /\
    (forall a, additional_stop r = Some a ->
               a <> "" /\ ~ starts_space a /\ ~ ends_space a).
Proof.
  assert (Hstop : forall s a, str_or_none (strip s) = Some a ->
                    a <> "" /\ ~ starts_space a /\ ~ ends_space a).
  { intros s a. unfold str_or_none. simpl.
    destruct (String.eqb_spec (strip s) "") as [|Hne]; simpl; [discriminate|].
    intros [= <-]. split; [exact Hne|]. apply strip_trimmed. }
  intros w req st r [H|H].
  - destruct (bookings_persisted w req st r H) as (v & _ & _ & _ & ->).
    unfold Bookings.new_order. cbv zeta. cbn [pickup_address destination_address additional_stop].
    unfold Bookings.pickup, Bookings.destination, Bookings.extra_stop.
    pose proof (strip_trimmed (post_get (POST req) "pickup_address" "")) as [? ?].
    pose proof (strip_trimmed (post_get (POST req) "destination_address" "")) as [? ?].
    repeat (split; [assumption|]). apply Hstop.
  - destruct (orders_persisted w req st r H) as (v & _ & _ & _ & ->).
    unfold Orders.new_order. cbv zeta. cbn [pickup_address destination_address additional_stop].
    unfold Orders.pickup, Orders.destination, Orders.extra_stop.
    pose proof (strip_trimmed (post_get (POST req) "pickup_address" "")) as [? ?].
    pose proof (strip_trimmed (post_get (POST req) "destination_address" "")) as [? ?].
    repeat (split; [assumption|]). apply Hstop.
Qed.

Lemma X6_persisted_addresses_are_trimmed_witness :
  let w := Sample.world_of 10000 10000 false None in
  let req := Sample.trip "confirm" "Sedan 1-5"
               [("pickup_address", nbsp +:+ "1 Collins St" +:+ wide_space +:+ " ");
                ("additional_stop", "  Southbank" +:+ nbsp)] in
  let r := Bookings.new_order w (POST req) (PFloat 65) in
  pickup_address r = "1 Collins St" /\
  additional_stop r = Some "Southbank" /\
  ~ starts_space (pickup_address r) /\ ~ ends_space (pickup_address r).
Proof.
  intros w req r.
  destruct (X6_persisted_addresses_are_trimmed w req Sample.priced_server r)
    as (H1 & H2 & _); [left; reflexivity|].
  split; [reflexivity|]. split; [reflexivity|]. split; [exact H1 | exact H2].
Defined.

(** ** Further properties: the route of [orders] *)

Lemma starts_with_spec (p s : string) :
  starts_with p s = true <-> exists t, s = p +:+ t.
Proof.
  revert s. induction p as [|a p IH]; intros s; simpl.
  - split; [eauto|reflexivity].
  - destruct s as [|b s].
    + split; [discriminate|]. intros [t H]. discriminate.
    + rewrite andb_true_iff, Ascii.eqb_eq, IH. split.
      * intros [-> [t ->]]. eauto.
      * intros [t [= -> ->]]. eauto.
Qed.

Lemma py_contains_spec (needle hay : string) :
  py_contains needle hay = true <-> exists pre post, hay = pre +:+ needle +:+ post.
Proof.
  induction hay as [|c hay IH]; simpl py_contains.
  - rewrite orb_false_r, starts_with_spec. split.
    + intros [t H]. exists "", t. exact H.
    + intros (pre & post & H). destruct pre; [|discriminate]. eauto.
  - rewrite orb_true_iff, starts_with_spec, IH. split.
    + intros [[t H]|(pre & post & H)].
      * exists "", t. exact H.
      * exists (String c pre), post. simpl. by rewrite H.
    + intros (pre & post & H). destruct pre as [|c' pre].
      * left. eauto.
      * right. simpl in H. injection H as -> ->. eauto.
Qed.

(** X7: [orders] finds tolls exactly when the instructions of some step of
    some leg of the route contain the text "Toll road"; a step without
    [html_instructions] never counts. *)
Theorem X7_tolls_found_in_step_instructions :
  forall legs,
    Orders.has_tolls legs = true <->
    exists leg text pre post,
      In leg legs /\ In (Some text) (steps leg) /\ text = pre +:+ "Toll road" +:+ post.
Proof.
  intros legs. unfold Orders.has_tolls. rewrite existsb_exists. split.
  - intros (leg & Hleg & H). apply existsb_exists in H as (step & Hstep & H).
    destruct step as [text|]; simpl in H; [|discriminate].
    apply py_contains_spec in H as (pre & post & ->). eauto 8.
  - intros (leg & text & pre & post & Hleg & Hstep & ->).
    exists leg. split; [exact Hleg|]. apply existsb_exists.
    exists (Some (pre +:+ "Toll road" +:+ post)). split; [exact Hstep|].
    simpl default. apply py_contains_spec. eauto.
Qed.

Lemma X7_tolls_found_in_step_instructions_witness :
  Orders.has_tolls
    [GLeg 500 [Some "Head north"; None];
     GLeg 9500 [Some "Take the ramp to CityLink <div>Toll road</div>"]] = true.
Proof.
  apply X7_tolls_found_in_step_instructions.
  exists (GLeg 9500 [Some "Take the ramp to CityLink <div>Toll road</div>"]),
         "Take the ramp to CityLink <div>Toll road</div>",
         "Take the ramp to CityLink <div>", "</div>".
  split; [right; left; reflexivity|]. split; [left; reflexivity | reflexivity].
Defined.

Lemma total_meters_from (legs : list gleg) (acc : Z) :
  fold_left (fun acc leg => acc + distance_value leg) legs acc = acc + meters_sum legs.
Proof.
  revert acc. induction legs as [|leg legs IH]; intros acc; simpl; [lia|].
  rewrite IH. lia.
Qed.

Lemma total_meters_sum (legs : list gleg) : Orders.total_meters legs = meters_sum legs.
Proof. unfold Orders.total_meters. by rewrite total_meters_from. Qed.

Lemma meters_sum_perm (a b : list gleg) : Permutation a b -> meters_sum a = meters_sum b.
Proof. induction 1; simpl; lia. Qed.

Lemma existsb_perm {A : Type} (f : A -> bool) (a b : list A) :
  Permutation a b -> existsb f a = existsb f b.
Proof.
  intros H. apply eq_true_iff_eq. rewrite !existsb_exists.
  split; intros (x & Hin & Hx); exists x; split; auto.
  - by apply (Permutation_in _ H).
  - by apply (Permutation_in _ (Permutation_sym H)).
Qed.

(** X8: the distance and the toll flag of [orders] do not depend on the
    order of the legs (Google may reorder the waypoints): the metres of the
    legs are added up, a route in two parts measures the sum of the parts and
    has tolls when one part has, and the empty route measures 0 with no
    tolls. *)
Theorem X8_route_summary_ignores_leg_order :
  (forall a b,
      Permutation a b ->
      Orders.total_meters a = Orders.total_meters b /\
      Orders.distance_km a = Orders.distance_km b /\
      Orders.has_tolls a = Orders.has_tolls b) /\
  (forall a b,
      Orders.total_meters (a ++ b) = Orders.total_meters a + Orders.total_meters b /\
      Orders.has_tolls (a ++ b) = Orders.has_tolls a || Orders.has_tolls b) /\
  Orders.total_meters [] = 0 /\ Orders.has_tolls [] = false.
Proof.
  split; [|split; [|split; reflexivity]].
  - intros a b H.
    assert (Hm : Orders.total_meters a = Orders.total_meters b).
    { rewrite !total_meters_sum. by apply meters_sum_perm. }
    split; [exact Hm|]. split.
    + unfold Orders.distance_km. by rewrite Hm.
    + unfold Orders.has_tolls. by apply existsb_perm.
  - intros a b. split.
    + rewrite !total_meters_sum. unfold meters_sum. rewrite fold_right_app.
      induction a as [|leg a IH]; simpl; [reflexivity|]. rewrite IH. lia.
    + unfold Orders.has_tolls. apply existsb_app.
Qed.

Lemma X8_route_summary_ignores_leg_order_witness :
  let north := GLeg 4200 [Some "Head north"] in
  let toll := GLeg 5810 [Some "Merge onto M2 <div>Toll road</div>"] in
  Orders.distance_km [north; toll] = Orders.distance_km [toll; north] /\
  Orders.has_tolls [north; toll] = Orders.has_tolls [toll; north].
Proof.
  intros north toll.
  destruct X8_route_summary_ignores_leg_order as (H & _).
  destruct (H [north; toll] [toll; north]) as (_ & Hd & Ht); [apply perm_swap|].
  split; [exact Hd | exact Ht].
Defined.

(** ** Further properties: the session and the table *)

Lemma bookings_other_page (w : world) (req : request) (st : server) :
  ~ posts req "calculate" -> ~ posts req "confirm" ->
  Bookings.bookings w req st = (st, Ret (Render "bookings/booking_form.html" [])).
Proof.
  intros Hc Hf. unfold Bookings.bookings. cbv zeta.
  destruct (String.eqb_spec (method req) "POST") as [Hm|]; [|done].
  destruct (String.eqb_spec (post_get (POST req) "action" "calculate") "calculate") as [Ha|].
  { destruct Hc. by split. }
  destruct (String.eqb_spec (post_get (POST req) "action" "calculate") "confirm") as [Ha|]; [|done].
  destruct Hf. by split.
Qed.

Lemma orders_other_page (w : world) (req : request) (st : server) :
  ~ posts req "calculate" -> ~ posts req "confirm" ->
  Orders.orders w req st = (st, Ret (Render "orders/booking_form.html" [])).
Proof.
  intros Hc Hf. unfold Orders.orders. cbv zeta.
  destruct (String.eqb_spec (method req) "POST") as [Hm|]; [|done].
  destruct (String.eqb_spec (post_get (POST req) "action" "calculate") "calculate") as [Ha|].
  { destruct Hc. by split. }
  destruct (String.eqb_spec (post_get (POST req) "action" "calculate") "confirm") as [Ha|]; [|done].
  destruct Hf. by split.
Qed.

(** Split on the branch [bookings] takes and rewrite its outcome. *)
Ltac bookings_branches w req st :=
  let Hc := fresh "Hc" in let Hf := fresh "Hf" in let Hr := fresh "Hr" in
  let Hs := fresh "Hs" in let Hv := fresh "Hv" in
  let d := fresh "d" in let e := fresh "e" in let v := fresh "v" in
  destruct (posts_dec req "calculate") as [Hc|Hc];
  [ destruct (Bookings.get_route w (Bookings.pickup (POST req))
                (Bookings.destination (POST req)) (Bookings.extra_stop (POST req)))
      as [d|e] eqn:Hr;
    [ rewrite (bookings_calculate_ok w req st d Hc Hr) in *
    | rewrite (bookings_calculate_exc w req st e Hc Hr) in * ]
  | destruct (posts_dec req "confirm") as [Hf|Hf];
    [ destruct (session st !! "pending_price") as [v|] eqn:Hs;
      [ destruct (none_or_not v) as [->|Hv];
        [ rewrite (bookings_confirm_none w req st Hf Hs) in *
        | rewrite (bookings_confirm_priced w req st v Hf Hs Hv) in * ]
      | rewrite (bookings_confirm_expired w req st Hf Hs) in * ]
    | rewrite (bookings_other_page w req st Hc Hf) in * ] ].

(** Split on the branch [orders] takes and rewrite its outcome. *)
Ltac orders_branches w req st :=
  let Hc := fresh "Hc" in let Hf := fresh "Hf" in let Hr := fresh "Hr" in
  let Hg := fresh "Hg" in let Hs := fresh "Hs" in let Hv := fresh "Hv" in
  let d := fresh "d" in let t := fresh "t" in let e := fresh "e" in let v := fresh "v" in
  destruct (posts_dec req "calculate") as [Hc|Hc];
  [ destruct (gmaps_client w) as [e|] eqn:Hg;
    [ rewrite (orders_calculate_no_client w req st e Hc Hg) in *
    | destruct (Orders.resolve w (Orders.pickup (POST req))
                  (Orders.destination (POST req)) (Orders.extra_stop (POST req)))
        as [[d t]|e] eqn:Hr;
      [ rewrite (orders_calculate_ok w req st d t Hc Hg Hr) in *
      | rewrite (orders_calculate_exc w req st e Hc Hg Hr) in * ] ]
  | destruct (posts_dec req "confirm") as [Hf|Hf];
    [ destruct (session st !! "pending_price") as [v|] eqn:Hs;
      [ destruct (none_or_not v) as [->|Hv];
        [ rewrite (orders_confirm_none w req st Hf Hs) in *
        | rewrite (orders_confirm_priced w req st v Hf Hs Hv) in * ]
      | rewrite (orders_confirm_expired w req st Hf Hs) in * ]
    | rewrite (orders_other_page w req st Hc Hf) in * ] ].

Lemma not_pending_key (k : string) :
  ~ In k pending_keys ->
  k <> "pending_price" /\ k <> "pending_breakdown" /\ k <> "pending_has_tolls".
Proof. unfold pending_keys. simpl. intuition. Qed.

Lemma pending_frame fp bd t (s : gmap string pyval) (k : string) :
  ~ In k pending_keys -> pending fp bd t s !! k = s !! k.
Proof.
  intros (H1 & H2 & H3)%not_pending_key. unfold pending.
  by rewrite !lookup_insert_ne.
Qed.

Lemma consumed_frame (s : gmap string pyval) (k : string) :
  ~ In k pending_keys -> consumed s !! k = s !! k.
Proof.
  intros (H1 & H2 & H3)%not_pending_key. unfold consumed.
  by rewrite !lookup_delete_ne.
Qed.

Lemma confirm_outcome_frame w st tpl fd order ret :
  let st' := fst (confirm_outcome w st tpl fd order ret) in
  (forall k, ~ In k pending_keys -> session st' !! k = session st !! k) /\
  (db st' = db st \/ db st' = (db st ++ [order])%list).
Proof.
  unfold confirm_outcome. destruct (create_error w (db st) order); cbn [fst session db].
  - split; [|by left]. intros k (H1 & _)%not_pending_key. by rewrite lookup_delete_ne.
  - split; [|by right]. intros k Hk. by apply consumed_frame.
Qed.

(** X9: whatever the request, a view changes no session key other than
    [pending_price], [pending_breakdown] and [pending_has_tolls], and it
    leaves the table as it was or with one row appended; rows already stored
    are never changed or removed. *)
Theorem X9_views_touch_only_pending_keys :
  forall w req st,
    (let st' := fst (Bookings.bookings w req st) in
     (forall k, ~ In k pending_keys -> session st' !! k = session st !! k) /\
     (db st' = db st \/ exists r, db st' = (db st ++ [r])%list)) /\
    (let st' := fst (Orders.orders w req st) in
     (forall k, ~ In k pending_keys -> session st' !! k = session st !! k) /\
     (db st' = db st \/ exists r, db st' = (db st ++ [r])%list)).
Proof.
  intros w req st. split.
  - cbv zeta. bookings_branches w req st; cbv zeta; cbn [fst session db];
      try (split; [reflexivity | by left]).
    + split; [|by left]. intros k Hk. by apply pending_frame.
    + split; [|by left]. intros k (H1 & _)%not_pending_key. by rewrite lookup_delete_ne.
    + destruct (confirm_outcome_frame w st "bookings/booking_form.html"
                  (Bookings.form_data w (POST req)) (Bookings.new_order w (POST req) v)
                  (Bookings.is_return_ride (POST req))) as [H1 H2].
      split; [exact H1|]. destruct H2; eauto.
  - cbv zeta. orders_branches w req st; cbv zeta; cbn [fst session db];
      try (split; [reflexivity | by left]).
    + split; [|by left]. intros k Hk. by apply pending_frame.
    + split; [|by left]. intros k (H1 & _)%not_pending_key. by rewrite lookup_delete_ne.
    + destruct (confirm_outcome_frame w st "orders/booking_form.html"
                  (Orders.form_data w (POST req)) (Orders.new_order w (POST req) v)
                  (Orders.is_return_ride (POST req))) as [H1 H2].
      split; [exact H1|]. destruct H2; eauto.
Qed.

Lemma X9_views_touch_only_pending_keys_witness :
  let w := Sample.world_of 10000 10000 false None in
  let req := Sample.trip "calculate" "Sedan 1-5" [] in
  let st := Server {["cart" := PInt 3; "pending_price" := PFloat 1]} [] in
  session (fst (Bookings.bookings w req st)) !! "cart" = Some (PInt 3) /\
  session (fst (Orders.orders w req st)) !! "cart" = Some (PInt 3).
Proof.
  intros w req st.
  destruct (X9_views_touch_only_pending_keys w req st) as ((HB & _) & (HO & _)).
  split.
  - rewrite (HB "cart"); [reflexivity|]. simpl. intuition discriminate.
  - rewrite (HO "cart"); [reflexivity|]. simpl. intuition discriminate.
Defined.

(** X10: a request that is not a POST, and a POST whose [action] is neither
    "calculate" nor "confirm", get the blank form with an empty context (no
    error, no [form_data]) and change nothing. *)
Theorem X10_other_requests_get_the_blank_form :
  forall w req st,
    method req <> "POST" \/
    (post_get (POST req) "action" "calculate" <> "calculate" /\
     post_get (POST req) "action" "calculate" <> "confirm") ->
    Bookings.bookings w req st = (st, Ret (Render "bookings/booking_form.html" [])) /\
    Orders.orders w req st = (st, Ret (Render "orders/booking_form.html" [])).
Proof.
  intros w req st H.
  assert (Hc : ~ posts req "calculate") by (intros [? ?]; destruct H as [?|[? ?]]; auto).
  assert (Hf : ~ posts req "confirm") by (intros [? ?]; destruct H as [?|[? ?]]; auto).
  split; [by apply bookings_other_page | by apply orders_other_page].
Qed.

Lemma X10_other_requests_get_the_blank_form_witness :
  let w := Sample.world_of 10000 10000 false None in
  Bookings.bookings w (Sample.trip "cancel" "Sedan 1-5" []) Sample.priced_server
    = (Sample.priced_server, Ret (Render "bookings/booking_form.html" [])) /\
  Orders.orders w (Request "GET" ∅) Sample.priced_server
    = (Sample.priced_server, Ret (Render "orders/booking_form.html" [])).
Proof.
  intros w. split.
  - apply (X10_other_requests_get_the_blank_form w (Sample.trip "cancel" "Sedan 1-5" [])).
    right. split; discriminate.
  - apply (X10_other_requests_get_the_blank_form w (Request "GET" ∅)).
    left. discriminate.
Defined.

(** ** Further properties: sequences of requests *)

(** Resolve lookups through inserts and deletes at known keys. *)
Ltac map_lookups :=
  repeat first
    [ rewrite lookup_insert_eq
    | rewrite lookup_delete_eq
    | rewrite lookup_insert_ne by done
    | rewrite lookup_delete_ne by done ].

Lemma pending_pending fp bd t fp' bd' t' (s : gmap string pyval) :
  pending fp bd t (pending fp' bd' t' s) = pending fp bd t s.
Proof.
  apply map_eq. intros k. unfold pending.
  destruct (decide (k = "pending_has_tolls")) as [->|H1]; [by map_lookups|].
  destruct (decide (k = "pending_breakdown")) as [->|H2]; [by map_lookups|].
  destruct (decide (k = "pending_price")) as [->|H3]; by map_lookups.
Qed.

Lemma consumed_pending fp bd t (s : gmap string pyval) :
  consumed (pending fp bd t s) = consumed s.
Proof.
  apply map_eq. intros k. unfold consumed, pending.
  destruct (decide (k = "pending_has_tolls")) as [->|H1]; [by map_lookups|].
  destruct (decide (k = "pending_breakdown")) as [->|H2]; [by map_lookups|].
  destruct (decide (k = "pending_price")) as [->|H3]; by map_lookups.
Qed.

(** The [confirm] step on a session in which a [calculate] left its three
    keys. *)
Lemma confirm_after_pending (w : world) (st : server) (tpl : string)
  (fd : list (string * pyval)) (order : row) (ret : bool) fp bd t :
  create_error w (db st) order = None ->
  confirm_outcome w (Server (pending fp bd t (session st)) (db st)) tpl fd order ret =
    (Server (consumed (session st)) (db st ++ [order])%list,
     Ret (confirmed_page order (PDict bd) (PBool t) ret)).
Proof.
  intros He. unfold confirm_outcome. cbn [session db]. rewrite He.
  by rewrite consumed_pending, pending_breakdown_lookup, pending_has_tolls_lookup.
Qed.

(** X11: a [confirm] that follows a successful [calculate] persists the
    price that [calculate] stored and showed, in a row built from the fields
    of the [confirm] submission (which need not be the fields that were
    priced); the session is left without the three pending keys, and the
    confirmation shows the breakdown and the toll flag of the [calculate]
    with the return flag of the [confirm]. *)
Theorem X11_confirm_after_calculate :
  (forall w1 w2 req1 req2 st d,
      posts req1 "calculate" ->
      Bookings.get_route w1 (Bookings.pickup (POST req1)) (Bookings.destination (POST req1))
                         (Bookings.extra_stop (POST req1)) = Ret d ->
      posts req2 "confirm" ->
      let out1 := Bookings.bookings w1 req1 st in
      exists price bd,
        shown "final_price" (snd out1) = Some (CVal (PFloat price)) /\
        shown "breakdown" (snd out1) = Some (CVal (PDict bd)) /\
        let order := Bookings.new_order w2 (POST req2) (PFloat price) in
        (create_error w2 (db st) order = None ->
         Bookings.bookings w2 req2 (fst out1) =
           (Server (consumed (session st)) (db st ++ [order])%list,
            Ret (confirmed_page order (PDict bd) (PBool (post_in (POST req1) "has_tolls"))
                   (post_in (POST req2) "return_ride"))))) /\
  (forall w1 w2 req1 req2 st d tolls,
      posts req1 "calculate" ->
      gmaps_client w1 = None ->
      Orders.resolve w1 (Orders.pickup (POST req1)) (Orders.destination (POST req1))
                     (Orders.extra_stop (POST req1)) = Ret (d, tolls) ->
      posts req2 "confirm" ->
      let out1 := Orders.orders w1 req1 st in
      exists price bd,
        shown "final_price" (snd out1) = Some (CVal (PFloat price)) /\
        shown "breakdown" (snd out1) = Some (CVal (PDict bd)) /\
        let order := Orders.new_order w2 (POST req2) (PFloat price) in
        (create_error w2 (db st) order = None ->
         Orders.orders w2 req2 (fst out1) =
           (Server (consumed (session st)) (db st ++ [order])%list,
            Ret (confirmed_page order (PDict bd) (PBool tolls)
                   (post_in (POST req2) "return_ride"))))).
Proof.
  split.
  - intros w1 w2 req1 req2 st d Hp1 Hr Hp2 out1. subst out1.
    rewrite (bookings_calculate_ok w1 req1 st d Hp1 Hr). cbv zeta. cbn [fst snd].
    eexists _, _. split; [reflexivity|]. split; [reflexivity|].
    intros He.
    match goal with
    | |- Bookings.bookings _ _ (Server (pending ?fp ?bd ?t ?s) ?rows) = _ =>
        rewrite (bookings_confirm_priced w2 req2 (Server (pending fp bd t s) rows) (PFloat fp)
                   Hp2 (pending_price_lookup fp bd t s)) by discriminate
    end.
    by apply (confirm_after_pending w2 st).
  - intros w1 w2 req1 req2 st d tolls Hp1 Hc Hr Hp2 out1. subst out1.
    rewrite (orders_calculate_ok w1 req1 st d tolls Hp1 Hc Hr). cbv zeta. cbn [fst snd].
    eexists _, _. split; [reflexivity|]. split; [reflexivity|].
    intros He.
    match goal with
    | |- Orders.orders _ _ (Server (pending ?fp ?bd ?t ?s) ?rows) = _ =>
        rewrite (orders_confirm_priced w2 req2 (Server (pending fp bd t s) rows) (PFloat fp)
                   Hp2 (pending_price_lookup fp bd t s)) by discriminate
    end.
    by apply (confirm_after_pending w2 st).
Qed.

Lemma X11_confirm_after_calculate_witness :
  let w := Sample.world_of 10000 10000 false None in
  let priced := Sample.trip "calculate" "Sedan 1-5" [] in
  let confirmed := Sample.trip "confirm" "Stretch 1-13" [("return_ride", "on")] in
  let st1 := fst (Bookings.bookings w priced Sample.empty_server) in
  exists r, db (fst (Bookings.bookings w confirmed st1)) = [r] /\
            limo_service_type r = "Stretch 1-13" /\ return_ride r = true /\
            total_price r = PFloat 65.
Proof.
  intros w priced confirmed st1.
  destruct X11_confirm_after_calculate as (HB & _).
  destruct (HB w w priced confirmed Sample.empty_server 10%float)
    as (price & bd & Hprice & _ & H);
    [split; reflexivity | reflexivity | split; reflexivity |].
  injection Hprice as <-.
  exists (Bookings.new_order w (POST confirmed) (PFloat 65)).
  subst st1. rewrite (H eq_refl). repeat split.
Defined.

(** X12: a successful [calculate] replaces whatever an earlier [calculate]
    left pending: after any [calculate], a [calculate] whose route resolves
    has the outcome it would have had without the earlier one. *)
Theorem X12_later_calculate_replaces_earlier :
  (forall w1 w2 req1 req2 st d,
      posts req1 "calculate" ->
      posts req2 "calculate" ->
      Bookings.get_route w2 (Bookings.pickup (POST req2)) (Bookings.destination (POST req2))
                         (Bookings.extra_stop (POST req2)) = Ret d ->
      Bookings.bookings w2 req2 (fst (Bookings.bookings w1 req1 st))
        = Bookings.bookings w2 req2 st) /\
  (forall w1 w2 req1 req2 st d tolls,
      posts req1 "calculate" ->
      posts req2 "calculate" ->
      gmaps_client w2 = None ->
      Orders.resolve w2 (Orders.pickup (POST req2)) (Orders.destination (POST req2))
                     (Orders.extra_stop (POST req2)) = Ret (d, tolls) ->
      Orders.orders w2 req2 (fst (Orders.orders w1 req1 st))
        = Orders.orders w2 req2 st).
Proof.
  split.
  - intros w1 w2 req1 req2 st d Hp1 Hp2 Hr2.
    rewrite !(bookings_calculate_ok w2 req2 _ d Hp2 Hr2). cbv zeta.
    destruct (Bookings.get_route w1 (Bookings.pickup (POST req1))
                (Bookings.destination (POST req1)) (Bookings.extra_stop (POST req1)))
      as [d1|e1] eqn:Hr1.
    + rewrite (bookings_calculate_ok w1 req1 st d1 Hp1 Hr1). cbv zeta. cbn [fst session db].
      by rewrite pending_pending.
    + by rewrite (bookings_calculate_exc w1 req1 st e1 Hp1 Hr1).
  - intros w1 w2 req1 req2 st d tolls Hp1 Hp2 Hc2 Hr2.
    rewrite !(orders_calculate_ok w2 req2 _ d tolls Hp2 Hc2 Hr2). cbv zeta.
    destruct (gmaps_client w1) as [e|] eqn:Hg.
    { by rewrite (orders_calculate_no_client w1 req1 st e Hp1 Hg). }
    destruct (Orders.resolve w1 (Orders.pickup (POST req1))
                (Orders.destination (POST req1)) (Orders.extra_stop (POST req1)))
      as [[d1 t1]|e1] eqn:Hr1.
    + rewrite (orders_calculate_ok w1 req1 st d1 t1 Hp1 Hg Hr1). cbv zeta. cbn [fst session db].
      by rewrite pending_pending.
    + by rewrite (orders_calculate_exc w1 req1 st e1 Hp1 Hg Hr1).
Qed.

Lemma X12_later_calculate_replaces_earlier_witness :
  let w := Sample.world_of 10000 10000 false None in
  let w20 := Sample.world_of 20000 20000 true None in
  let first := Sample.trip "calculate" "Stretch 1-13" [("return_ride", "on")] in
  let second := Sample.trip "calculate" "Sedan 1-5" [] in
  fst (Bookings.bookings w second (fst (Bookings.bookings w20 first Sample.empty_server)))
    = fst (Bookings.bookings w second Sample.empty_server) /\
  fst (Orders.orders w second (fst (Orders.orders w20 first Sample.empty_server)))
    = fst (Orders.orders w second Sample.empty_server).
Proof.
  intros w w20 first second.
  destruct X12_later_calculate_replaces_earlier as (HB & HO).
  split.
  - rewrite (HB w20 w first second Sample.empty_server 10%float);
      [reflexivity | split; reflexivity | split; reflexivity | reflexivity].
  - rewrite (HO w20 w first second Sample.empty_server 10%float false);
      [reflexivity | split; reflexivity | split; reflexivity | reflexivity | reflexivity].
Defined.

(** ** Further properties: defaults, escaping exceptions and the preview *)

(** X13: in every persisted row, [number_of_passengers] and
    [number_of_bags] are the integer 2 when the submission has no such
    field; [limo_service_type] is the submitted name, recognised or not, and
    "Sedan 1-5" when the field is missing; [baby_seat] and [return_ride] are
    true exactly when the box was submitted. *)
Theorem X13_persisted_defaults :
  forall w req st r,
    persisted st (fst (Bookings.bookings w req st)) r \/
    persisted st (fst (Orders.orders w req st)) r ->
    (POST req !! "number_of_passengers" = None -> number_of_passengers r = PInt 2) /\
    (POST req !! "number_of_bags" = None -> number_of_bags r = PInt 2) /\
    limo_service_type r
      = match POST req !! "limo_service_type" with Some x => x | None => "Sedan 1-5" end /\
    baby_seat r = bool_decide (is_Some (POST req !! "baby_seat")) /\
    return_ride r = bool_decide (is_Some (POST req !! "return_ride")).
Proof.
  intros w req st r [H|H].
  - destruct (bookings_persisted w req st r H) as (v & _ & _ & _ & ->).
    unfold Bookings.new_order. cbv zeta.
    cbn [number_of_passengers number_of_bags limo_service_type baby_seat return_ride].
    change (dict_item (Bookings.form_data w (POST req)) "number_of_passengers")
      with (post_get_val (POST req) "number_of_passengers" (PInt 2)).
    change (dict_item (Bookings.form_data w (POST req)) "number_of_bags")
      with (post_get_val (POST req) "number_of_bags" (PInt 2)).
    unfold Bookings.service_type, Bookings.has_baby_seat, Bookings.is_return_ride,
      post_get_val, post_get, post_in.
    split; [by intros ->|]. split; [by intros ->|]. split; [reflexivity|].
    split; [destruct (POST req !! "baby_seat") | destruct (POST req !! "return_ride")];
      reflexivity.
  - destruct (orders_persisted w req st r H) as (v & _ & _ & _ & ->).
    unfold Orders.new_order. cbv zeta.
    cbn [number_of_passengers number_of_bags limo_service_type baby_seat return_ride].
    change (dict_item (Orders.form_data w (POST req)) "number_of_passengers")
      with (post_get_val (POST req) "number_of_passengers" (PInt 2)).
    change (dict_item (Orders.form_data w (POST req)) "number_of_bags")
      with (post_get_val (POST req) "number_of_bags" (PInt 2)).
    unfold Orders.service_type, Orders.has_baby_seat, Orders.is_return_ride,
      post_get_val, post_get, post_in.
    split; [by intros ->|]. split; [by intros ->|]. split; [reflexivity|].
    split; [destruct (POST req !! "baby_seat") | destruct (POST req !! "return_ride")];
      reflexivity.
Qed.

Lemma X13_persisted_defaults_witness :
  let w := Sample.world_of 10000 10000 false None in
  let req := Sample.trip "confirm" "Hummer 1-20" [("return_ride", "on")] in
  let r := Orders.new_order w (POST req) (PFloat 65) in
  number_of_passengers r = PInt 2 /\ number_of_bags r = PInt 2 /\
  limo_service_type r = "Hummer 1-20" /\ baby_seat r = false /\ return_ride r = true.
Proof.
  intros w req r.
  destruct (X13_persisted_defaults w req Sample.priced_server r)
    as (H1 & H2 & H3 & H4 & H5); [right; reflexivity|].
  split; [apply H1; reflexivity|]. split; [apply H2; reflexivity|].
  split; [exact H3|]. split; [exact H4 | exact H5].
Defined.

Lemma confirm_outcome_returns w st tpl fd order ret :
  exists page, snd (confirm_outcome w st tpl fd order ret) = Ret page /\
               (template page = tpl \/ template page = "orders/booking_confirmed.html").
Proof.
  unfold confirm_outcome. destruct (create_error w (db st) order); cbn [snd]; eauto.
Qed.

(** X14: the exceptions that leave the views.  [bookings] lets an exception
    escape exactly when a [calculate] gets from [get_route] an exception that
    is neither a [ValueError] nor a [RequestException] (such as the
    [IndexError] of an Ok answer without routes); [orders] exactly when a
    [calculate] cannot build the Google client.  In both cases the session
    and the table are unchanged, and no [confirm] ever raises. *)
Theorem X14_escaping_exceptions :
  forall w req st e,
    (snd (Bookings.bookings w req st) = Exc e <->
     posts req "calculate" /\
     Bookings.get_route w (Bookings.pickup (POST req)) (Bookings.destination (POST req))
                        (Bookings.extra_stop (POST req)) = Exc e /\
     is_ValueError e = false /\ is_RequestException e = false) /\
    (snd (Bookings.bookings w req st) = Exc e -> fst (Bookings.bookings w req st) = st) /\
    (snd (Orders.orders w req st) = Exc e <->
     posts req "calculate" /\ gmaps_client w = Some e) /\
    (snd (Orders.orders w req st) = Exc e -> fst (Orders.orders w req st) = st).
Proof.
  intros w req st e.
  assert (HB : snd (Bookings.bookings w req st) = Exc e ->
               (posts req "calculate" /\
                Bookings.get_route w (Bookings.pickup (POST req))
                  (Bookings.destination (POST req)) (Bookings.extra_stop (POST req)) = Exc e /\
                is_ValueError e = false /\ is_RequestException e = false) /\
               fst (Bookings.bookings w req st) = st).
  { intros H. bookings_branches w req st; cbv zeta in H; cbn [fst snd] in *;
      try discriminate H.
    - destruct (is_ValueError e0) eqn:E1; [discriminate H|].
      destruct (is_RequestException e0) eqn:E2; [discriminate H|].
      injection H as <-. auto.
    - destruct (confirm_outcome_returns w st "bookings/booking_form.html"
                  (Bookings.form_data w (POST req)) (Bookings.new_order w (POST req) v)
                  (Bookings.is_return_ride (POST req))) as (page & Hp & _).
      rewrite Hp in H. discriminate H. }
  assert (HO : snd (Orders.orders w req st) = Exc e ->
               (posts req "calculate" /\ gmaps_client w = Some e) /\
               fst (Orders.orders w req st) = st).
  { intros H. orders_branches w req st; cbv zeta in H; cbn [fst snd] in *;
      try discriminate H.
    - injection H as <-. auto.
    - destruct (confirm_outcome_returns w st "orders/booking_form.html"
                  (Orders.form_data w (POST req)) (Orders.new_order w (POST req) v)
                  (Orders.is_return_ride (POST req))) as (page & Hp & _).
      rewrite Hp in H. discriminate H. }
  split; [|split; [|split]].
  - split; [intros H; apply (HB H)|].
    intros (Hp & Hr & E1 & E2).
    rewrite (bookings_calculate_exc w req st e Hp Hr). cbn [snd]. by rewrite E1, E2.
  - intros H. apply (HB H).
  - split; [intros H; apply (HO H)|].
    intros (Hp & Hg). by rewrite (orders_calculate_no_client w req st e Hp Hg).
  - intros H. apply (HO H).
Qed.

Lemma X14_escaping_exceptions_witness :
  let req := Sample.trip "calculate" "Sedan 1-5" [] in
  snd (Bookings.bookings world_without_routes req Sample.priced_server)
    = Exc (IndexError "list index out of range") /\
  snd (Orders.orders world_without_key req Sample.priced_server)
    = Exc (ValueError "Invalid API key provided.").
Proof.
  intros req. split.
  - apply (X14_escaping_exceptions world_without_routes req Sample.priced_server).
    split; [split; reflexivity|]. split; [reflexivity|]. split; reflexivity.
  - apply (X14_escaping_exceptions world_without_key req Sample.priced_server).
    split; [split; reflexivity | reflexivity].
Defined.

(** X15: whenever a view renders the price preview, the request was a
    [calculate], and the price, the breakdown and the toll flag on the page
    are the values it has just stored in the session under [pending_price],
    [pending_breakdown] and [pending_has_tolls]. *)
Theorem X15_preview_shows_what_is_stored :
  forall w req st,
    (let out := Bookings.bookings w req st in
     rendered (snd out) = Some "orders/booking_summary_preview.html" ->
     posts req "calculate" /\
     shown "final_price" (snd out) = CVal <$> session (fst out) !! "pending_price" /\
     shown "breakdown" (snd out) = CVal <$> session (fst out) !! "pending_breakdown" /\
     shown "has_tolls" (snd out) = CVal <$> session (fst out) !! "pending_has_tolls") /\
    (let out := Orders.orders w req st in
     rendered (snd out) = Some "orders/booking_summary_preview.html" ->
     posts req "calculate" /\
     shown "final_price" (snd out) = CVal <$> session (fst out) !! "pending_price" /\
     shown "breakdown" (snd out) = CVal <$> session (fst out) !! "pending_breakdown" /\
     shown "has_tolls" (snd out) = CVal <$> session (fst out) !! "pending_has_tolls").
Proof.
  intros w req st. split; cbv zeta; intros H.
  - bookings_branches w req st; cbv zeta in *; cbn [fst snd session] in *;
      try discriminate H.
    + rewrite pending_price_lookup, pending_breakdown_lookup, pending_has_tolls_lookup.
      split; [assumption|]. split; [reflexivity|]. split; reflexivity.
    + destruct (is_ValueError e); [discriminate H|].
      destruct (is_RequestException e); discriminate H.
    + destruct (confirm_outcome_returns w st "bookings/booking_form.html"
                  (Bookings.form_data w (POST req)) (Bookings.new_order w (POST req) v)
                  (Bookings.is_return_ride (POST req))) as (page & Hp & Ht).
      rewrite Hp in H. simpl in H. destruct Ht as [Ht|Ht]; rewrite Ht in H; discriminate H.
  - orders_branches w req st; cbv zeta in *; cbn [fst snd session] in *;
      try discriminate H.
    + rewrite pending_price_lookup, pending_breakdown_lookup, pending_has_tolls_lookup.
      split; [assumption|]. split; [reflexivity|]. split; reflexivity.
    + destruct (confirm_outcome_returns w st "orders/booking_form.html"
                  (Orders.form_data w (POST req)) (Orders.new_order w (POST req) v)
                  (Orders.is_return_ride (POST req))) as (page & Hp & Ht).
      rewrite Hp in H. simpl in H. destruct Ht as [Ht|Ht]; rewrite Ht in H; discriminate H.
Qed.

Lemma X15_preview_shows_what_is_stored_witness :
  let w := Sample.world_of 20000 20000 true None in
  let req := Sample.trip "calculate" "SUV 1-7" [("baby_seat", "on")] in
  shown "final_price" (snd (Bookings.bookings w req Sample.priced_server))
    = Some (CVal (PFloat 185)) /\
  shown "final_price" (snd (Orders.orders w req Sample.priced_server))
    = Some (CVal (PFloat 203.5)).
Proof.
  intros w req.
  destruct (X15_preview_shows_what_is_stored w req Sample.priced_server) as (HB & HO).
  split.
  - destruct (HB eq_refl) as (_ & H & _). rewrite H. reflexivity.
  - destruct (HO eq_refl) as (_ & H & _). rewrite H. reflexivity.
Defined.

(** ** The two views compared *)

(** C9, as stated, fails: for an SUV 1-7 trip of 20 km over a toll road,
    submitted without the [has_tolls] box, [bookings] stores the price 165.00
    and [orders] 183.50; and ticking [has_tolls], a field [orders] never
    reads, changes what [bookings] stores. *)
Lemma C9_views_differ_counterexample :
  ~ resolved_trip_has_one_outcome /\ ~ bookings_reads_the_fields_of_orders.
Proof.
  set (w := Sample.world_of 20000 20000 true None).
  set (req := Sample.trip "calculate" "SUV 1-7" []).
  split; intros H.
  - specialize (H w req Sample.empty_server 20%float true
                  (conj eq_refl eq_refl) eq_refl eq_refl eq_refl).
    apply (f_equal (fun st => match session st !! "pending_price" with
                              | Some (PFloat f) => PrimFloat.eqb f 165
                              | _ => false
                              end)) in H.
    vm_compute in H. discriminate H.
  - specialize (H w "POST" (POST req) (<["has_tolls" := "on"]> (POST req)) Sample.empty_server).
    assert (Hagree : agree_on ("action" :: field_keys) (POST req)
                       (<["has_tolls" := "on"]> (POST req))).
    { intros k Hin. simpl in Hin.
      repeat (destruct Hin as [<-|Hin]; [reflexivity|]). contradiction. }
    apply H in Hagree.
    apply (f_equal (fun out => session (fst out) !! "pending_has_tolls")) in Hagree.
    vm_compute in Hagree. discriminate Hagree.
Qed.

(** C9, amended: the two views extract the same fields into [form_data],
    build the same row and price by the same rule, but they take the toll
    flag from different places: [bookings] from the [has_tolls] box of the
    form, [orders] from the text "Toll road" in the steps of the route, and
    [orders] ignores the box.  When the resolved distance is the same and the
    box of [bookings] equals the flag [orders] found, the two [calculate]
    outcomes are equal.  A failed [calculate] leaves session and table
    unchanged in both; [bookings] shows the text of a [ValueError], a fixed
    text for another [RequestException] and lets any other exception escape,
    [orders] shows "Route calculation failed: <text>" for every exception
    and lets only the failure to build its client escape.  A [confirm]
    leaves the same session and table in both; the outcomes are equal when
    the row is saved, and otherwise both render the form again with the same
    [form_data], from [bookings/] and [orders/], with the same "Could not
    save your booking: <text>" and with their own session-expired wording. *)
Theorem C9_views_agree_given_the_toll_flag :
  (forall w post v,
      Bookings.form_data w post = Orders.form_data w post /\
      Bookings.new_order w post v = Orders.new_order w post v) /\
  (forall tier r d stop tolls baby ret s,
      Bookings.conf tier = Orders.conf tier /\
      Bookings.subtotal r d stop tolls baby = Orders.subtotal r d stop tolls baby /\
      Bookings.final_price s ret = Orders.final_price s ret /\
      Bookings.breakdown r d stop tolls baby ret s = Orders.breakdown r d stop tolls baby ret s) /\
  (* the toll flag *)
  (forall w req st d,
      posts req "calculate" ->
      Bookings.get_route w (Bookings.pickup (POST req)) (Bookings.destination (POST req))
                         (Bookings.extra_stop (POST req)) = Ret d ->
      session (fst (Bookings.bookings w req st)) !! "pending_has_tolls"
        = Some (PBool (post_in (POST req) "has_tolls"))) /\
  (forall w req st legs others d,
      posts req "calculate" ->
      gmaps_client w = None ->
      gmaps_directions w (Orders.pickup (POST req)) (Orders.destination (POST req))
                       (Orders.waypoints (Orders.extra_stop (POST req))) = Ret (legs :: others) ->
      Orders.distance_km legs = Ret d ->
      session (fst (Orders.orders w req st)) !! "pending_has_tolls"
        = Some (PBool (Orders.has_tolls legs))) /\
  (forall w m (p : gmap string string) x st,
      Orders.orders w (Request m (<["has_tolls" := x]> p)) st
        = Orders.orders w (Request m p) st) /\
  (* a calculate that resolves *)
  (forall w req st d tolls,
      posts req "calculate" ->
      gmaps_client w = None ->
      Bookings.get_route w (Bookings.pickup (POST req)) (Bookings.destination (POST req))
                         (Bookings.extra_stop (POST req)) = Ret d ->
      Orders.resolve w (Orders.pickup (POST req)) (Orders.destination (POST req))
                     (Orders.extra_stop (POST req)) = Ret (d, tolls) ->
      post_in (POST req) "has_tolls" = tolls ->
      Bookings.bookings w req st = Orders.orders w req st) /\
  (* a calculate that fails *)
  (forall w req st e,
      posts req "calculate" ->
      Bookings.get_route w (Bookings.pickup (POST req)) (Bookings.destination (POST req))
                         (Bookings.extra_stop (POST req)) = Exc e ->
      Bookings.bookings w req st =
        (st, if is_ValueError e then
               Ret (form_page "bookings/booking_form.html" (message e)
                      (Bookings.form_data w (POST req)))
             else if is_RequestException e then
               Ret (form_page "bookings/booking_form.html"
                      "Could not connect to the routing service. Please check your addresses and try again."
                      (Bookings.form_data w (POST req)))
             else Exc e)) /\
  (forall w req st,
      posts req "calculate" ->
      (forall e, gmaps_client w = Some e -> Orders.orders w req st = (st, Exc e)) /\
      (forall e,
          gmaps_client w = None ->
          Orders.resolve w (Orders.pickup (POST req)) (Orders.destination (POST req))
                         (Orders.extra_stop (POST req)) = Exc e ->
          Orders.orders w req st =
            (st, Ret (form_page "orders/booking_form.html"
                        ("Route calculation failed: " +:+ message e)
                        (Bookings.form_data w (POST req)))))) /\
  (* a confirm *)
  (forall w req st,
      posts req "confirm" ->
      let b := Bookings.bookings w req st in
      let o := Orders.orders w req st in
      let fd := Bookings.form_data w (POST req) in
      fst b = fst o /\
      ((session st !! "pending_price" = None \/ session st !! "pending_price" = Some PNone) ->
       snd b = Ret (form_page "bookings/booking_form.html"
                      "Your session expired. Please fill in the form again." fd) /\
       snd o = Ret (form_page "orders/booking_form.html"
                      "Your session expired. Please recalculate the price." fd)) /\
      (forall v, session st !! "pending_price" = Some v -> v <> PNone ->
         (create_error w (db st) (Bookings.new_order w (POST req) v) = None -> b = o) /\
         (forall e, create_error w (db st) (Bookings.new_order w (POST req) v) = Some e ->
            snd b = Ret (form_page "bookings/booking_form.html"
                           ("Could not save your booking: " +:+ message e) fd) /\
            snd o = Ret (form_page "orders/booking_form.html"
                           ("Could not save your booking: " +:+ message e) fd)))).
Proof.
  split; [|split; [|split; [|split; [|split; [|split; [|split; [|split]]]]]]].
  - intros w post v. apply same_fields.
  - intros. repeat split; reflexivity.
  - intros w req st d Hp Hr.
    rewrite (bookings_calculate_ok w req st d Hp Hr). observe.
    apply pending_has_tolls_lookup.
  - intros w req st legs others d Hp Hc Hd Hkm.
    assert (Hr : Orders.resolve w (Orders.pickup (POST req)) (Orders.destination (POST req))
                   (Orders.extra_stop (POST req))
                 = Ret (d, Orders.has_tolls legs)).
    { unfold Orders.resolve. rewrite Hd. simpl bind. by rewrite Hkm. }
    rewrite (orders_calculate_ok w req st _ _ Hp Hc Hr). observe.
    apply pending_has_tolls_lookup.
  - intros w m p x st. apply orders_same_reading.
    + unfold post_get. by rewrite lookup_insert_ne.
    + unfold Orders.extra_stop, post_get. by rewrite lookup_insert_ne.
    + intros k Hin _. rewrite lookup_insert_ne; [reflexivity|].
      intros E. by apply (field_key_is_not_has_tolls k).
  - intros w req st d tolls Hp Hc Hb Ho Ht.
    rewrite (bookings_calculate_ok w req st d Hp Hb).
    rewrite (orders_calculate_ok w req st d tolls Hp Hc Ho).
    rewrite Ht. reflexivity.
  - intros w req st e Hp Hr. by apply bookings_calculate_exc.
  - intros w req st Hp. split.
    + intros e Hc. by apply orders_calculate_no_client.
    + intros e Hc Hr. by rewrite (orders_calculate_exc w req st e Hp Hc Hr).
  - intros w req st Hp b o fd. subst b o fd.
    destruct (session st !! "pending_price") as [v|] eqn:Hs.
    2:{ rewrite (bookings_confirm_expired w req st Hp Hs).
        rewrite (orders_confirm_expired w req st Hp Hs). cbn [fst snd].
        split; [reflexivity|]. split; [by intros _|]. intros v [=]. }
    destruct (none_or_not v) as [->|Hv].
    { rewrite (bookings_confirm_none w req st Hp Hs).
      rewrite (orders_confirm_none w req st Hp Hs). cbn [fst snd].
      split; [reflexivity|]. split; [by intros _|]. intros v [= <-] Hv. contradiction. }
    rewrite (bookings_confirm_priced w req st v Hp Hs Hv).
    rewrite (orders_confirm_priced w req st v Hp Hs Hv).
    change (Orders.new_order w (POST req) v) with (Bookings.new_order w (POST req) v).
    change (Orders.form_data w (POST req)) with (Bookings.form_data w (POST req)).
    change (Orders.is_return_ride (POST req)) with (Bookings.is_return_ride (POST req)).
    unfold confirm_outcome.
    destruct (create_error w (db st) (Bookings.new_order w (POST req) v)) as [e|] eqn:He;
      cbn [fst snd].
    + split; [reflexivity|]. split; [intros [H|H]; congruence|].
      intros v' [= <-] _. rewrite He. split; [discriminate|]. intros e' [= <-]. by split.
    + split; [reflexivity|]. split; [intros [H|H]; congruence|].
      intros v' [= <-] _. rewrite He. split; [reflexivity|]. discriminate.
Qed.

Lemma C9_views_agree_given_the_toll_flag_witness :
  let w := Sample.world_of 20000 20000 true None in
  let calc := Sample.trip "calculate" "SUV 1-7"
                [("additional_stop", "Southbank"); ("has_tolls", "on"); ("baby_seat", "on")] in
  let conf := Sample.trip "confirm" "SUV 1-7"
                [("additional_stop", "Southbank"); ("has_tolls", "on"); ("baby_seat", "on")] in
  Bookings.bookings w calc Sample.empty_server = Orders.orders w calc Sample.empty_server /\
  fst (Bookings.bookings w conf (fst (Bookings.bookings w calc Sample.empty_server)))
    = fst (Orders.orders w conf (fst (Bookings.bookings w calc Sample.empty_server))).
Proof.
  intros w calc conf.
  destruct C9_views_agree_given_the_toll_flag as (_ & _ & _ & _ & _ & Hcalc & _ & _ & Hconf).
  split.
  - apply (Hcalc w calc Sample.empty_server 20%float true);
      [split; reflexivity | reflexivity | reflexivity | reflexivity | reflexivity].
  - apply (Hconf w conf); split; reflexivity.
Defined.
